(** * The PostgreSQL plan receiver and the exporter wrapper of opencensus-service

    A shallow embedding of [postgresreceiver] (plan document to span batch)
    and of [exporterwrapper.PushOcProtoSpansToOCTraceExporter], followed by
    the properties the specification states about them.

    Conventions of the embedding:
    - a decoded JSON value ([interface{}] after [json.Unmarshal]) is [json];
    - a failed type assertion, index or slice expression is a [Panic];
    - [math/rand]'s process-wide source is an explicit state threaded through
      the code by the monad [M];
    - [float64] is the kernel's binary64 [float]; [int64(f)] is [float64.to_int64];
    - a [time.Time] is the integer count of nanoseconds since the Unix epoch. *)

From stdpp Require Import base option list strings gmap.
From Stdlib Require Import ZArith Lia PrimFloat SpecFloat FloatOps.
From Stdlib Require Import Strings.Byte.

Set Warnings "-register-all,-inexact-float,-notation-incompatible-prefix".
Open Scope Z_scope.

(** ** Go's float64 conversions *)

Module float64.

Definition min_int64 : Z := - 2 ^ 63.
Definition max_int64 : Z := 2 ^ 63 - 1.

(** The integer part of a finite float, rounded toward zero. *)
Definition truncate (f : float) : option Z :=
  match Prim2SF f with
  | S754_zero _ => Some 0
  | S754_finite sign m e =>
      let magnitude :=
        match e with
        | Z0 => Zpos m
        | Zpos p => Z.shiftl (Zpos m) (Zpos p)
        | Zneg p => Z.shiftr (Zpos m) (Zpos p)
        end in
      Some (if sign then - magnitude else magnitude)
  | S754_infinity _ | S754_nan => None
  end.

(** [int64(f)].  Go leaves the result implementation-dependent when the
    value does not fit; the model takes amd64's answer, the "integer
    indefinite" value [0x8000000000000000]. *)
Definition to_int64 (f : float) : Z :=
  match truncate f with
  | Some z => if bool_decide (min_int64 <= z <= max_int64) then z else min_int64
  | None => min_int64
  end.

(** [float64(n)]: the nearest binary64 value, ties to even. *)
Definition of_int64 (n : Z) : float :=
  SF2Prim (binary_normalize prec emax n 0 false).

End float64.

(** ** Package time *)

Module time.

Definition Time : Type := Z.
Definition Duration : Type := Z.

Definition Nanosecond : Duration := 1.
Definition Millisecond : Duration := 1000000.

Definition Unix (sec nsec : Z) : Time := sec * 1000000000 + nsec.
Definition Add (t : Time) (d : Duration) : Time := t + d.
Definition After (t u : Time) : bool := bool_decide (u < t).
Definition Equal (t u : Time) : bool := bool_decide (t = u).

End time.

(** ** Package encoding/binary *)

Module binary.

Definition byte_of_Z (z : Z) : byte :=
  default "000"%byte (Byte.of_N (Z.to_N (z mod 256))).

Definition Z_of_byte (b : byte) : Z := Z.of_N (Byte.to_N b).

(** [binary.LittleEndian.PutUint64] into a buffer of exactly eight bytes:
    byte [i] is [byte(v >> (8*i))]. *)
Definition LittleEndian_PutUint64 (v : Z) : list byte :=
  (λ i : Z, byte_of_Z (Z.shiftr v (8 * i))) <$> [0; 1; 2; 3; 4; 5; 6; 7].

Definition LittleEndian_Uint64 (b : list byte) : Z :=
  foldr (λ x acc, Z_of_byte x + 256 * acc) 0 b.

(** [binary.BigEndian.Uint64] of an eight-byte slice. *)
Definition BigEndian_Uint64 (b : list byte) : Z :=
  foldl (λ acc x, 256 * acc + Z_of_byte x) 0 b.

End binary.

(** ** Package math/rand: the process-wide source *)

Module rand.

(** The source is the sequence of values it will hand out and the number
    of values already drawn. *)
Record Source : Type := mkSource { stream : nat → Z; drawn : nat }.

Definition peek (s : Source) (k : nat) : Z := stream s (drawn s + k)%nat mod 2 ^ 64.

Definition skip (k : nat) (s : Source) : Source :=
  {| stream := stream s; drawn := (drawn s + k)%nat |}.

Definition Uint64 (s : Source) : Z * Source := (peek s 0, skip 1 s).

End rand.

(** ** Decoded JSON and run-time panics *)

Inductive json : Type :=
| JNull
| JBool (b : bool)
| JNum (f : float)
| JStr (s : string)
| JArr (elems : list json)
| JObj (members : list (string * json)).

(** [m[k]] on a [map[string]interface{}], in continuation form: [absent] when
    the key is not bound, [present v] on its value. The members are the
    bindings of the Go map; the first binding of a key is the one found. *)
Definition obj_find {A : Type} (m : list (string * json)) (k : string)
    (absent : A) (present : json → A) : A :=
  (fix find (m : list (string * json)) : A :=
     match m with
     | [] => absent
     | (k', v) :: m' => if String.eqb k k' then present v else find m'
     end) m.

(** [m[k]]: the zero value [nil] for an unbound key. *)
Definition obj_get (m : list (string * json)) (k : string) : json :=
  obj_find m k JNull (λ v, v).

Inductive panic : Type :=
| TypeAssertion
| IndexOutOfRange
| SliceBounds.

Inductive result (A : Type) : Type :=
| Ok (a : A)
| Panic (p : panic).
Arguments Ok {A} a.
Arguments Panic {A} p.

(** Code that draws from the random source and may panic. *)
Definition M (A : Type) : Type := rand.Source → result (A * rand.Source).

Definition ret {A : Type} (a : A) : M A := λ s, Ok (a, s).

Definition bind {A B : Type} (m : M A) (k : A → M B) : M B :=
  λ s, match m s with
       | Ok (a, s') => k a s'
       | Panic p => Panic p
       end.

Definition throw {A : Type} (p : panic) : M A := λ _, Panic p.

Notation "x <- m ;; k" := (bind m (λ x, k))
  (at level 100, m at next level, right associativity, only parsing).
Notation "' p <- m ;; k" := (bind m (λ x, match x with p => k end))
  (at level 100, p pattern, m at next level, right associativity, only parsing).

(** Type assertions [v.(T)]. *)
Definition assert_map (v : json) : M (list (string * json)) :=
  match v with JObj m => ret m | _ => throw TypeAssertion end.
Definition assert_string (v : json) : M string :=
  match v with JStr s => ret s | _ => throw TypeAssertion end.
Definition assert_float64 (v : json) : M float :=
  match v with JNum f => ret f | _ => throw TypeAssertion end.

(** ** The protobuf messages the code builds *)

Module tracepb.

(** [AttributeValue]'s [oneof]; a [TruncatableString] is its [Value]. *)
Inductive AttributeValue : Type :=
| StringValue (s : string)
| IntValue (n : Z)
| BoolValue (b : bool)
| DoubleValue (f : float).

Record Timestamp : Type := mkTimestamp { Seconds : Z; Nanos : Z }.

Record Span : Type := mkSpan {
  TraceId : list byte;
  SpanId : list byte;
  ParentSpanId : list byte;   (* [nil] when absent *)
  Name : string;
  StartTime : Timestamp;
  EndTime : Timestamp;
  Attributes : gmap string AttributeValue
}.

End tracepb.
Import tracepb.

(** Modelled from the spec: [internal.TimeToTimestamp] is not among the
    sources. The spec gives a span's start and end as the absolute timestamps
    of the reconciled instants; a protobuf timestamp holds whole seconds and
    the nanoseconds within the second, so the instant is split accordingly. *)
Definition TimeToTimestamp (t : time.Time) : Timestamp :=
  {| Seconds := Z.quot t 1000000000; Nanos := Z.rem t 1000000000 |}.

(** The instant a timestamp denotes, in nanoseconds since the epoch. *)
Definition Timestamp_nanos (ts : Timestamp) : Z :=
  Seconds ts * 1000000000 + Nanos ts.

(** A span's start and end as instants. *)
Definition span_start (sp : Span) : Z := Timestamp_nanos (StartTime sp).
Definition span_end (sp : Span) : Z := Timestamp_nanos (EndTime sp).

(** ** postgresreceiver: identifiers, times and attribute values *)

(** [rand.Uint64()] *)
Definition draw_Uint64 : M Z := λ s, Ok (rand.Uint64 s).

(** The two halves of the 16-byte buffer are filled by one little-endian
    store each. *)
Definition generateTraceId : M (list byte) :=
  lo <- draw_Uint64 ;;
  hi <- draw_Uint64 ;;
  ret (binary.LittleEndian_PutUint64 lo ++ binary.LittleEndian_PutUint64 hi).

Definition generateSpanId : M (list byte) :=
  v <- draw_Uint64 ;;
  ret (binary.LittleEndian_PutUint64 v).

Definition timestampToTime (timestamp : float) : time.Time :=
  let sec := float64.to_int64 timestamp in
  let nsec := float64.to_int64 ((timestamp - float64.of_int64 sec) * 1e9)%float in
  time.Unix sec nsec.

Definition stringToAttributeValue (val : string) : AttributeValue :=
  StringValue val.

Definition int64ToAttributeValue (val : Z) : AttributeValue :=
  IntValue val.

(** [time.Duration(offset_ms * float64(time.Millisecond))] *)
Definition ms_to_Duration (offset_ms : float) : time.Duration :=
  float64.to_int64 (offset_ms * float64.of_int64 time.Millisecond)%float.

(** ** postgresreceiver.parseChildPlan *)

(** The [for _, child_plan := range plans] loop of [parseChildPlan], over the
    running start time and the spans collected so far; [parse] is the
    recursive call with the node's own span id as the parent. *)
Definition range_plans (parse : json → M (time.Time * list Span))
    : list json → time.Time → list Span → M (time.Time * list Span) :=
  fix range (plans : list json) (span_start_time : time.Time) (spans : list Span) :=
    match plans with
    | [] => ret (span_start_time, spans)
    | child_plan :: rest =>
        '(child_span_start_time, child_spans) <- parse child_plan ;;
        range rest
          (if time.After span_start_time child_span_start_time
           then child_span_start_time else span_start_time)
          (spans ++ child_spans)
    end.

(** One step of the running start time in the children loop. *)
Definition earlier (t u : time.Time) : time.Time :=
  if time.After t u then u else t.

(** The optional attributes: set only when the key holds a non-nil value,
    which must then be a string. *)
Definition set_optional (key : string) (v : json)
    (attributes : gmap string AttributeValue) : M (gmap string AttributeValue) :=
  match v with
  | JNull => ret attributes
  | _ => s <- assert_string v ;; ret (<[key := stringToAttributeValue s]> attributes)
  end.

Fixpoint parseChildPlan (plan : json) (trace_start_time : time.Time)
    (trace_id parent_span_id : list byte) {struct plan} : M (time.Time * list Span) :=
  match plan with
  | JObj plan_map =>
      span_id <- generateSpanId ;;
      node_type <- assert_string (obj_get plan_map "Node Type") ;;
      start_offset_ms <- assert_float64 (obj_get plan_map "Actual Startup Time") ;;
      let span_start_time := time.Add trace_start_time (ms_to_Duration start_offset_ms) in
      '(span_start_time, spans) <-
        obj_find plan_map "Plans" (ret (span_start_time, []))
          (λ plans,
             match plans with
             | JNull => ret (span_start_time, [])
             | JArr children =>
                 range_plans
                   (λ child_plan,
                      parseChildPlan child_plan trace_start_time trace_id span_id)
                   children span_start_time []
             | _ => throw TypeAssertion
             end) ;;
      end_offset_ms <- assert_float64 (obj_get plan_map "Actual Total Time") ;;
      let span_end_time := time.Add trace_start_time (ms_to_Duration end_offset_ms) in
      let span_end_time :=
        if time.Equal span_end_time span_start_time
        then time.Add span_end_time time.Nanosecond else span_end_time in
      rows <- assert_float64 (obj_get plan_map "Actual Rows") ;;
      let attributes : gmap string AttributeValue :=
        <["Rows Fetched" := int64ToAttributeValue (float64.to_int64 rows)]> ∅ in
      attributes <- set_optional "Operation" (obj_get plan_map "Operation") attributes ;;
      attributes <- set_optional "Table Name" (obj_get plan_map "Relation Name") attributes ;;
      let span :=
        {| TraceId := trace_id;
           SpanId := span_id;
           ParentSpanId := parent_span_id;
           Name := node_type;
           StartTime := TimeToTimestamp span_start_time;
           EndTime := TimeToTimestamp span_end_time;
           Attributes := attributes |} in
      ret (span_start_time, spans ++ [span])
  | _ => throw TypeAssertion
  end.

(** ** postgresreceiver.parseExecutionPlan *)

Definition parseExecutionPlan (message : json) : M (list Span) :=
  plan <- assert_map message ;;
  trace_id <- generateTraceId ;;
  span_id <- generateSpanId ;;
  start_timestamp <- assert_float64 (obj_get plan "start timestamp") ;;
  duration <- assert_float64 (obj_get plan "duration") ;;
  let start_time := timestampToTime start_timestamp in
  let end_time := timestampToTime (start_timestamp + duration)%float in
  query <- assert_string (obj_get plan "Query Text") ;;
  username <- assert_string (obj_get plan "username") ;;
  session_username <- assert_string (obj_get plan "session_username") ;;
  connection_id <- assert_float64 (obj_get plan "connection_id") ;;
  let backend_pid := float64.to_int64 connection_id in
  database_name <- assert_string (obj_get plan "database_name") ;;
  let attributes : gmap string AttributeValue :=
    <["database_name" := stringToAttributeValue database_name]>
      (<["connection_id" := int64ToAttributeValue backend_pid]>
         (<["session_username" := stringToAttributeValue session_username]>
            (<["username" := stringToAttributeValue username]>
               (<["query" := stringToAttributeValue query]> ∅)))) in
  let root_span :=
    {| TraceId := trace_id;
       SpanId := span_id;
       ParentSpanId := [];
       Name := "CloudSQLQuery";
       StartTime := TimeToTimestamp start_time;
       EndTime := TimeToTimestamp end_time;
       Attributes := attributes |} in
  '(_, spans) <- parseChildPlan (obj_get plan "Plan") start_time trace_id span_id ;;
  ret (spans ++ [root_span]).

(** ** postgresreceiver.ProcessExecutionPlan *)

Record TraceData : Type := mkTraceData {
  HostName : string;
  Pid : Z;
  Spans : list Span
}.

(** What [rows.Scan] and [json.Unmarshal] make of one row of the query. *)
Inductive row : Type :=
| ScanFails
| UnmarshalFails
| Unmarshalled (message : json).

(** How a tick ends: the loop runs to its end, a panic unwinds out of it, or
    [log.Fatal] ends the process. *)
Inductive tick_end : Type :=
| Returns
| Panics (p : panic)
| Fatal.

(** The [for rows.Next()] loop; [sink] collects the batches handed to
    [nextProcessor.ProcessTraceData], in order. *)
Fixpoint range_rows (pid : Z) (rows : list row) (sink : list TraceData)
    (s : rand.Source) : tick_end * list TraceData * rand.Source :=
  match rows with
  | [] => (Returns, sink, s)
  | ScanFails :: rest => range_rows pid rest sink s
  | UnmarshalFails :: rest => range_rows pid rest sink s
  | Unmarshalled message :: rest =>
      match parseExecutionPlan message s with
      | Ok (spans, s') =>
          let td := {| HostName := "PostgreSQL"; Pid := pid; Spans := spans |} in
          range_rows pid rest (sink ++ [td]) s'
      | Panic p => (Panics p, sink, s)
      end
  end.

(** [query] is [None] when [db.Query] returns an error. *)
Definition ProcessExecutionPlan (pid : Z) (query : option (list row))
    (sink : list TraceData) (s : rand.Source)
    : tick_end * list TraceData * rand.Source :=
  match query with
  | None => (Fatal, sink, s)
  | Some rows => range_rows pid rows sink s
  end.

(** ** exporterwrapper.PushOcProtoSpansToOCTraceExporter *)

(** The slice expression [b[lo:hi]]; the capacity of [b] is taken to be its
    length. *)
Definition slice (b : list byte) (lo hi : nat) : result (list byte) :=
  if decide (hi ≤ length b)%nat then Ok (take (hi - lo) (drop lo b))
  else Panic SliceBounds.

Section ExporterWrapper.

(** [trace.SpanData], the error type, the translator of package [spandata]
    and [internal.CombineErrors] are not among the sources. *)
Context {SpanData error : Type}.
Variable ProtoSpanToOCSpanData : Span → SpanData + error.
Variable CombineErrors : list error → option error.

(** The state of the conversion loop: the spans handed to
    [ocExporter.ExportSpan], [goodSpans] and [errs]. *)
Record push_state : Type := mkPushState {
  exported : list SpanData;
  goodSpans : list Span;
  errs : list error
}.

Definition push_span (st : push_state) (span : Span) : push_state :=
  match ProtoSpanToOCSpanData span with
  | inl sd =>
      {| exported := exported st ++ [sd];
         goodSpans := goodSpans st ++ [span];
         errs := errs st |}
  | inr err =>
      {| exported := exported st;
         goodSpans := goodSpans st;
         errs := errs st ++ [err] |}
  end.

Definition push_loop (spans : list Span) : push_state :=
  foldl push_span {| exported := []; goodSpans := []; errs := [] |} spans.

(** The two halves of the first good span's trace id that the second
    [log.Printf] formats. *)
Definition trace_link (goodSpans : list Span) : result (Z * Z) :=
  match goodSpans with
  | [] => Panic IndexOutOfRange
  | first :: _ =>
      match slice (TraceId first) 0 8 with
      | Panic p => Panic p
      | Ok hi =>
          match slice (TraceId first) 8 16 with
          | Panic p => Panic p
          | Ok lo => Ok (binary.BigEndian_Uint64 hi, binary.BigEndian_Uint64 lo)
          end
      end
  end.

(** The result pairs what reached the exporter with how the call ended:
    the combined error, or a panic. *)
Definition PushOcProtoSpansToOCTraceExporter (td : TraceData)
    : list SpanData * result (option error) :=
  let st := push_loop (Spans td) in
  match trace_link (goodSpans st) with
  | Panic p => (exported st, Panic p)
  | Ok _ => (exported st, Ok (CombineErrors (errs st)))
  end.

(** The spans of a batch that translate, in order. *)
Fixpoint translated (spans : list Span) : list Span :=
  match spans with
  | [] => []
  | span :: rest =>
      match ProtoSpanToOCSpanData span with
      | inl _ => span :: translated rest
      | inr _ => translated rest
      end
  end.

(** What the translator makes of the spans of a batch, in order: the span
    data of those that translate and the errors of the others. *)
Fixpoint translations (spans : list Span) : list SpanData :=
  match spans with
  | [] => []
  | span :: rest =>
      match ProtoSpanToOCSpanData span with
      | inl sd => sd :: translations rest
      | inr _ => translations rest
      end
  end.

Fixpoint failures (spans : list Span) : list error :=
  match spans with
  | [] => []
  | span :: rest =>
      match ProtoSpanToOCSpanData span with
      | inl _ => failures rest
      | inr err => err :: failures rest
      end
  end.

End ExporterWrapper.

(** ** The typed view of a plan document *)

(** A plan operator and a plan document as the specification's data model
    has them; [decode_PlanNode] and [decode_PlanDocument] read them off a
    decoded JSON value and fail on the shapes the parser panics on. *)
Inductive PlanNode : Type := mkPlanNode {
  nodeType : string;
  operation : option string;
  relationName : option string;
  actualStartupTimeMs : float;
  actualTotalTimeMs : float;
  actualRows : float;
  children : list PlanNode
}.

Record PlanDocument : Type := mkPlanDocument {
  startTimestamp : float;
  durationSeconds : float;
  queryText : string;
  username : string;
  sessionUsername : string;
  connectionId : float;
  databaseName : string;
  plan : PlanNode
}.

Definition decode_string (v : json) : option string :=
  match v with JStr s => Some s | _ => None end.

Definition decode_float64 (v : json) : option float :=
  match v with JNum f => Some f | _ => None end.

Definition decode_optional (v : json) : option (option string) :=
  match v with
  | JNull => Some None
  | JStr s => Some (Some s)
  | _ => None
  end.

Definition decode_all {A : Type} (decode : json → option A)
    : list json → option (list A) :=
  fix all (l : list json) :=
    match l with
    | [] => Some []
    | v :: l' =>
        match decode v with
        | Some a => match all l' with Some r => Some (a :: r) | None => None end
        | None => None
        end
    end.

Fixpoint decode_PlanNode (v : json) : option PlanNode :=
  match v with
  | JObj m =>
      node_type ← decode_string (obj_get m "Node Type");
      startup ← decode_float64 (obj_get m "Actual Startup Time");
      plans ← obj_find m "Plans" (Some [])
                 (λ plans,
                    match plans with
                    | JNull => Some []
                    | JArr l => decode_all decode_PlanNode l
                    | _ => None
                    end);
      total ← decode_float64 (obj_get m "Actual Total Time");
      rows ← decode_float64 (obj_get m "Actual Rows");
      op ← decode_optional (obj_get m "Operation");
      rel ← decode_optional (obj_get m "Relation Name");
      Some (mkPlanNode node_type op rel startup total rows plans)
  | _ => None
  end.

Definition decode_PlanDocument (v : json) : option PlanDocument :=
  match v with
  | JObj m =>
      start ← decode_float64 (obj_get m "start timestamp");
      duration ← decode_float64 (obj_get m "duration");
      query ← decode_string (obj_get m "Query Text");
      user ← decode_string (obj_get m "username");
      session ← decode_string (obj_get m "session_username");
      conn ← decode_float64 (obj_get m "connection_id");
      db ← decode_string (obj_get m "database_name");
      root ← decode_PlanNode (obj_get m "Plan");
      Some (mkPlanDocument start duration query user session conn db root)
  | _ => None
  end.

(** The child plans a plan object lists under ["Plans"]. *)
Definition plans_of (v : json) : list json :=
  match v with
  | JObj m => match obj_get m "Plans" with JArr l => l | _ => [] end
  | _ => []
  end.

(** ** Plan trees: sizes, paths and traversal positions *)

(** The number of plan nodes of a tree. *)
Fixpoint size (n : PlanNode) : nat :=
  S (sum_list_with size (children n)).

Definition sizes (l : list PlanNode) : nat := sum_list_with size l.

(** The node reached from [n] by descending into child [i] at each step [i]
    of the path. *)
Fixpoint subnode (n : PlanNode) (p : list nat) : option PlanNode :=
  match p with
  | [] => Some n
  | i :: p' =>
      match children n !! i with
      | Some c => subnode c p'
      | None => None
      end
  end.

(** The nodes of a tree in post-order: the subtrees of the children, left to
    right, then the node itself. *)
Fixpoint postorder (n : PlanNode) : list PlanNode :=
  mjoin (postorder <$> children n) ++ [n].

(** The position of the node at path [p] in the post-order listing of [n]. *)
Fixpoint post_index (n : PlanNode) (p : list nat) : nat :=
  match p with
  | [] => size n - 1
  | i :: p' =>
      match children n !! i with
      | Some c => sizes (take i (children n)) + post_index c p'
      | None => 0
      end
  end.

(** Its position in the pre-order listing: the number of span identifiers
    generated for the tree before its own. *)
Fixpoint pre_index (n : PlanNode) (p : list nat) : nat :=
  match p with
  | [] => 0
  | i :: p' =>
      match children n !! i with
      | Some c => S (sizes (take i (children n)) + pre_index c p')
      | None => 0
      end
  end.

(** ** The reconciliation rule in the specification's words *)

Definition candidate_start (T0 : time.Time) (n : PlanNode) : time.Time :=
  T0 + ms_to_Duration (actualStartupTimeMs n).

Definition candidate_end (T0 : time.Time) (n : PlanNode) : time.Time :=
  T0 + ms_to_Duration (actualTotalTimeMs n).

(** Final start = the minimum of the candidate own start and every child's
    final start. *)
Fixpoint final_start (T0 : time.Time) (n : PlanNode) : time.Time :=
  foldr Z.min (candidate_start T0 n) (final_start T0 <$> children n).

(** Candidate end, moved one nanosecond later when it equals the final
    start. *)
Definition final_end (T0 : time.Time) (n : PlanNode) : time.Time :=
  if decide (candidate_end T0 n = final_start T0 n)
  then candidate_end T0 n + 1 else candidate_end T0 n.

(** ** The spans of a plan tree, as a function of the tree *)

Definition node_attributes (n : PlanNode) : gmap string AttributeValue :=
  let attributes := {["Rows Fetched" := IntValue (float64.to_int64 (actualRows n))]} in
  let attributes :=
    match operation n with
    | Some op => <["Operation" := StringValue op]> attributes
    | None => attributes
    end in
  match relationName n with
  | Some rel => <["Table Name" := StringValue rel]> attributes
  | None => attributes
  end.

(** The span identifier made from the [k]-th next value of the source. *)
Definition span_id_at (s : rand.Source) (k : nat) : list byte :=
  binary.LittleEndian_PutUint64 (rand.peek s k).

Definition node_span (T0 : time.Time) (trace_id parent_span_id span_id : list byte)
    (n : PlanNode) : Span :=
  {| TraceId := trace_id;
     SpanId := span_id;
     ParentSpanId := parent_span_id;
     Name := nodeType n;
     StartTime := TimeToTimestamp (final_start T0 n);
     EndTime := TimeToTimestamp (final_end T0 n);
     Attributes := node_attributes n |}.

(** The spans of a list of sibling trees, each converted where the one
    before it left the source. *)
Definition forest_spans (spans_of : rand.Source → PlanNode → list Span)
    : list PlanNode → rand.Source → list Span :=
  fix forest (cs : list PlanNode) (s : rand.Source) : list Span :=
    match cs with
    | [] => []
    | c :: cs' => spans_of s c ++ forest cs' (rand.skip (size c) s)
    end.

(** The spans [parseChildPlan] emits for a tree when the source stands at
    [s]: the spans of the children, left to right, then the node's own. *)
Fixpoint node_spans (T0 : time.Time) (trace_id parent_span_id : list byte)
    (s : rand.Source) (n : PlanNode) {struct n} : list Span :=
  forest_spans (λ s' c, node_spans T0 trace_id (span_id_at s 0) s' c)
    (children n) (rand.skip 1 s)
  ++ [node_span T0 trace_id parent_span_id (span_id_at s 0) n].

(** The span of the node at path [p] of a tree converted with the source at
    [s] under the parent identifier [parent_span_id]. *)
Fixpoint span_at (T0 : time.Time) (trace_id parent_span_id : list byte)
    (s : rand.Source) (n : PlanNode) (p : list nat) : option Span :=
  match p with
  | [] => Some (node_span T0 trace_id parent_span_id (span_id_at s 0) n)
  | i :: p' =>
      match children n !! i with
      | Some c =>
          span_at T0 trace_id (span_id_at s 0)
            (rand.skip (S (sizes (take i (children n)))) s) c p'
      | None => None
      end
  end.

(** The parent identifier of the span of the node at path [p]: the one the
    tree was converted under for the top node, and otherwise the identifier
    drawn for the node one step up the path. *)
Definition path_parent_id (parent_span_id : list byte) (s : rand.Source)
    (n : PlanNode) (p : list nat) : list byte :=
  match p with
  | [] => parent_span_id
  | _ => span_id_at s (pre_index n (removelast p))
  end.

(** The trace identifier and the root span of a document. *)
Definition trace_id_at (s : rand.Source) : list byte :=
  binary.LittleEndian_PutUint64 (rand.peek s 0)
    ++ binary.LittleEndian_PutUint64 (rand.peek s 1).

Definition root_attributes (d : PlanDocument) : gmap string AttributeValue :=
  <["database_name" := StringValue (databaseName d)]>
    (<["connection_id" := IntValue (float64.to_int64 (connectionId d))]>
       (<["session_username" := StringValue (sessionUsername d)]>
          (<["username" := StringValue (username d)]>
             (<["query" := StringValue (queryText d)]> ∅)))).

Definition trace_start (d : PlanDocument) : time.Time :=
  timestampToTime (startTimestamp d).

Definition trace_end (d : PlanDocument) : time.Time :=
  timestampToTime (startTimestamp d + durationSeconds d)%float.

Definition root_span (d : PlanDocument) (s : rand.Source) : Span :=
  {| TraceId := trace_id_at s;
     SpanId := span_id_at s 2;
     ParentSpanId := [];
     Name := "CloudSQLQuery";
     StartTime := TimeToTimestamp (trace_start d);
     EndTime := TimeToTimestamp (trace_end d);
     Attributes := root_attributes d |}.

(** The spans [parseExecutionPlan] returns for a decoded document. *)
Definition document_spans (d : PlanDocument) (s : rand.Source) : list Span :=
  node_spans (trace_start d) (trace_id_at s) (span_id_at s 2) (rand.skip 3 s) (plan d)
  ++ [root_span d s].

(** ** Example documents *)

Definition example_plan : json :=
  JObj [("start timestamp", JNum 1000.0);
        ("duration", JNum 0.05);
        ("Query Text", JStr "SELECT 1");
        ("username", JStr "svc");
        ("session_username", JStr "svc");
        ("connection_id", JNum 42);
        ("database_name", JStr "app");
        ("Plan", JObj [("Node Type", JStr "Seq Scan");
                       ("Relation Name", JStr "users");
                       ("Actual Startup Time", JNum 0.1);
                       ("Actual Total Time", JNum 40.0);
                       ("Actual Rows", JNum 100)])].

(** A source that hands out 0, 1, 2, ... *)
Definition counting_source : rand.Source :=
  {| rand.stream := λ n, Z.of_nat n; rand.drawn := 0 |}.

(** A source that keeps handing out the same value. *)
Definition constant_source : rand.Source :=
  {| rand.stream := λ _, 7; rand.drawn := 0 |}.

(** A sort over a scan: the sort reports a startup time of 5ms, its child a
    startup time of 2ms. *)
Definition scenario_child : json :=
  JObj [("Node Type", JStr "Seq Scan");
        ("Actual Startup Time", JNum 2);
        ("Actual Total Time", JNum 3);
        ("Actual Rows", JNum 7)].

Definition scenario_node : json :=
  JObj [("Node Type", JStr "Sort");
        ("Actual Startup Time", JNum 5);
        ("Actual Total Time", JNum 10);
        ("Actual Rows", JNum 7);
        ("Plans", JArr [scenario_child])].

Definition scenario_tree : PlanNode :=
  mkPlanNode "Sort" None None 5 10 7
    [mkPlanNode "Seq Scan" None None 2 3 7 []].

(** The decoded form of [example_plan]. *)
Definition example_document : PlanDocument :=
  mkPlanDocument 1000.0 0.05 "SELECT 1" "svc" "svc" 42 "app"
    (mkPlanNode "Seq Scan" None (Some "users") 0.1 40.0 100 []).

(** A document that reports no duration, and a node whose total time is
    below its startup time. *)
Definition stalled_plan : json :=
  JObj [("start timestamp", JNum 1000.0);
        ("duration", JNum 0);
        ("Query Text", JStr "SELECT 1");
        ("username", JStr "svc");
        ("session_username", JStr "svc");
        ("connection_id", JNum 42);
        ("database_name", JStr "app");
        ("Plan", JObj [("Node Type", JStr "Result");
                       ("Actual Startup Time", JNum 5);
                       ("Actual Total Time", JNum 1);
                       ("Actual Rows", JNum 1)])].

(** [example_plan] without its ["username"]. *)
Definition nameless_plan : json :=
  JObj [("start timestamp", JNum 1000.0);
        ("duration", JNum 0.05);
        ("Query Text", JStr "SELECT 1");
        ("session_username", JStr "svc");
        ("connection_id", JNum 42);
        ("database_name", JStr "app");
        ("Plan", JObj [("Node Type", JStr "Seq Scan");
                       ("Relation Name", JStr "users");
                       ("Actual Startup Time", JNum 0.1);
                       ("Actual Total Time", JNum 40.0);
                       ("Actual Rows", JNum 100)])].

(** A document around a plan. *)
Definition document_of (root : json) : json :=
  JObj [("start timestamp", JNum 1000.0);
        ("duration", JNum 0.05);
        ("Query Text", JStr "SELECT 1");
        ("username", JStr "svc");
        ("session_username", JStr "svc");
        ("connection_id", JNum 42);
        ("database_name", JStr "app");
        ("Plan", root)].

Definition decoded_document_of (root : PlanNode) : PlanDocument :=
  mkPlanDocument 1000.0 0.05 "SELECT 1" "svc" "svc" 42 "app" root.

(** A plan whose only node reports a startup time before the trace start. *)
Definition early_node : json :=
  JObj [("Node Type", JStr "Result");
        ("Actual Startup Time", JNum (-1));
        ("Actual Total Time", JNum 1);
        ("Actual Rows", JNum 1)].

(** A sort that reports equal startup and total times, over a scan that
    started earlier. *)
Definition instant_node : json :=
  JObj [("Node Type", JStr "Sort");
        ("Actual Startup Time", JNum 5);
        ("Actual Total Time", JNum 5);
        ("Actual Rows", JNum 7);
        ("Plans", JArr [scenario_child])].

Definition instant_tree : PlanNode :=
  mkPlanNode "Sort" None None 5 5 7
    [mkPlanNode "Seq Scan" None None 2 3 7 []].

(** A scan that reports equal startup and total times. *)
Definition instant_leaf : json :=
  JObj [("Node Type", JStr "Seq Scan");
        ("Actual Startup Time", JNum 2);
        ("Actual Total Time", JNum 2);
        ("Actual Rows", JNum 7)].

Definition instant_leaf_tree : PlanNode :=
  mkPlanNode "Seq Scan" None None 2 2 7 [].

(** ** Vocabulary of the further properties *)

(** The keys [parseChildPlan] reads in a plan object, and the keys
    [parseExecutionPlan] reads in a document. *)
Definition node_keys : list string :=
  ["Node Type"; "Actual Startup Time"; "Plans"; "Actual Total Time";
   "Actual Rows"; "Operation"; "Relation Name"].

Definition document_keys : list string :=
  ["start timestamp"; "duration"; "Query Text"; "username";
   "session_username"; "connection_id"; "database_name"; "Plan"].

(** The messages of the rows that scan and unmarshal. *)
Definition documents (rows : list row) : list json :=
  omap (λ r, match r with Unmarshalled message => Some message | _ => None end) rows.

(** What a span says apart from its identifiers. *)
Definition payload (sp : Span)
    : string * Timestamp * Timestamp * gmap string AttributeValue :=
  (Name sp, StartTime sp, EndTime sp, Attributes sp).

(** A plan object with keys the parser does not read, in another order than
    [scenario_node]. *)
Definition verbose_node : json :=
  JObj [("Plan Rows", JNum 12);
        ("Plans", JArr [scenario_child]);
        ("Actual Rows", JNum 7);
        ("Parent Relationship", JStr "Outer");
        ("Actual Total Time", JNum 10);
        ("Actual Startup Time", JNum 5);
        ("Node Type", JStr "Sort");
        ("Node Type", JStr "Shadowed")].

(** ** Induction over decoded JSON and over plan trees *)

Section json_induction.

Variable P : json → Prop.
Hypothesis P_null : P JNull.
Hypothesis P_bool : ∀ b, P (JBool b).
Hypothesis P_num : ∀ f, P (JNum f).
Hypothesis P_str : ∀ s, P (JStr s).
Hypothesis P_arr : ∀ l, Forall P l → P (JArr l).
Hypothesis P_obj : ∀ m, Forall (λ kv, P kv.2) m → P (JObj m).

Fixpoint json_nested_ind (v : json) : P v :=
  match v with
  | JNull => P_null
  | JBool b => P_bool b
  | JNum f => P_num f
  | JStr s => P_str s
  | JArr l =>
      P_arr l ((fix elems (l : list json) : Forall P l :=
                  match l with
                  | [] => Forall_nil_2 P
                  | x :: l' => Forall_cons_2 P x l' (json_nested_ind x) (elems l')
                  end) l)
  | JObj m =>
      P_obj m ((fix members (m : list (string * json)) : Forall (λ kv, P kv.2) m :=
                  match m with
                  | [] => Forall_nil_2 _
                  | kv :: m' =>
                      Forall_cons_2 (λ kv, P kv.2) kv m' (json_nested_ind kv.2) (members m')
                  end) m)
  end.

End json_induction.

Section PlanNode_induction.

Variable P : PlanNode → Prop.
Hypothesis P_node : ∀ ty op rel st tot rows cs,
  Forall P cs → P (mkPlanNode ty op rel st tot rows cs).

Fixpoint PlanNode_nested_ind (n : PlanNode) : P n :=
  match n with
  | mkPlanNode ty op rel st tot rows cs =>
      P_node ty op rel st tot rows cs
        ((fix kids (cs : list PlanNode) : Forall P cs :=
            match cs with
            | [] => Forall_nil_2 P
            | c :: cs' => Forall_cons_2 P c cs' (PlanNode_nested_ind c) (kids cs')
            end) cs)
  end.

End PlanNode_induction.

(** On a value that decodes, [parseChildPlan] returns the final start and
    the spans of the decoded tree and draws one identifier per node; on any
    other value it panics. *)
Definition parse_agrees (v : json) : Prop :=
  match decode_PlanNode v with
  | Some n =>
      ∀ T0 trace_id parent_span_id s,
        parseChildPlan v T0 trace_id parent_span_id s =
        Ok ((final_start T0 n, node_spans T0 trace_id parent_span_id s n),
            rand.skip (size n) s)
  | None =>
      ∀ T0 trace_id parent_span_id s,
        parseChildPlan v T0 trace_id parent_span_id s = Panic TypeAssertion
  end.

(** * Properties *)

(** ** The random source *)

Lemma skip_skip (a b : nat) (s : rand.Source) :
  rand.skip a (rand.skip b s) = rand.skip (b + a) s.
Proof.
  destruct s as [str d]. unfold rand.skip. simpl. f_equal. lia.
Qed.

Lemma skip_0 (s : rand.Source) : rand.skip 0 s = s.
Proof.
  destruct s as [str d]. unfold rand.skip. simpl. f_equal. lia.
Qed.

Lemma peek_skip (a k : nat) (s : rand.Source) :
  rand.peek (rand.skip a s) k = rand.peek s (a + k).
Proof.
  unfold rand.peek, rand.skip. simpl. do 2 f_equal. lia.
Qed.

Lemma span_id_at_skip (a k : nat) (s : rand.Source) :
  span_id_at (rand.skip a s) k = span_id_at s (a + k).
Proof.
  unfold span_id_at. now rewrite peek_skip.
Qed.

Lemma generateSpanId_eq (s : rand.Source) :
  generateSpanId s = Ok (span_id_at s 0, rand.skip 1 s).
Proof. reflexivity. Qed.

Lemma generateTraceId_eq (s : rand.Source) :
  generateTraceId s = Ok (trace_id_at s, rand.skip 2 s).
Proof.
  unfold generateTraceId, bind, draw_Uint64, ret, trace_id_at, rand.Uint64.
  rewrite peek_skip, skip_skip. reflexivity.
Qed.

(** ** Map lookups *)

Lemma obj_find_get {A : Type} (m : list (string * json)) (k : string)
    (absent : A) (present : json → A) :
  present JNull = absent →
  obj_find m k absent present = present (obj_get m k).
Proof.
  intros Hnil. unfold obj_get, obj_find.
  induction m as [|[k' v] m IH]; simpl.
  - now rewrite Hnil.
  - destruct (String.eqb k k'); [reflexivity | exact IH].
Qed.

Lemma obj_get_Forall (P : json → Prop) (m : list (string * json)) (k : string) :
  P JNull → Forall (λ kv, P kv.2) m → P (obj_get m k).
Proof.
  intros Hnil Hm. unfold obj_get, obj_find.
  induction Hm as [|[k' v] m Hv _ IH]; simpl.
  - exact Hnil.
  - destruct (String.eqb k k'); [exact Hv | exact IH].
Qed.

(** ** The running minimum of the children loop *)

Lemma earlier_min (t u : time.Time) : earlier t u = Z.min t u.
Proof.
  unfold earlier, time.After. case_bool_decide; lia.
Qed.

Lemma foldr_min_le_init (a : Z) (l : list Z) : foldr Z.min a l <= a.
Proof.
  induction l as [|x l IH]; simpl; lia.
Qed.

Lemma foldr_min_le_elem (a x : Z) (l : list Z) : x ∈ l → foldr Z.min a l <= x.
Proof.
  induction 1 as [x l|x y l _ IH]; simpl; [pose proof (foldr_min_le_init a l)|]; lia.
Qed.

Lemma foldr_min_attained (a : Z) (l : list Z) :
  foldr Z.min a l = a ∨ foldr Z.min a l ∈ l.
Proof.
  induction l as [|x l [IH|IH]]; simpl.
  - now left.
  - destruct (Z.min_spec x (foldr Z.min a l)) as [[_ ->]|[_ ->]].
    + right. left.
    + now left.
  - right. destruct (Z.min_spec x (foldr Z.min a l)) as [[_ ->]|[_ ->]].
    + left.
    + now right.
Qed.

Lemma foldr_min_shift (a x : Z) (l : list Z) :
  foldr Z.min (Z.min a x) l = Z.min x (foldr Z.min a l).
Proof.
  induction l as [|y l IH]; simpl; lia.
Qed.

Lemma final_start_unfold (T0 : time.Time) (n : PlanNode) :
  final_start T0 n = foldr Z.min (candidate_start T0 n) (final_start T0 <$> children n).
Proof. destruct n; reflexivity. Qed.

Lemma size_unfold (n : PlanNode) : size n = S (sizes (children n)).
Proof. destruct n; reflexivity. Qed.

Lemma node_spans_unfold T0 trace_id parent_span_id s (n : PlanNode) :
  node_spans T0 trace_id parent_span_id s n =
  forest_spans (node_spans T0 trace_id (span_id_at s 0)) (children n) (rand.skip 1 s)
  ++ [node_span T0 trace_id parent_span_id (span_id_at s 0) n].
Proof. destruct n; reflexivity. Qed.

Lemma sizes_cons (c : PlanNode) (cs : list PlanNode) :
  sizes (c :: cs) = (size c + sizes cs)%nat.
Proof. reflexivity. Qed.

Lemma sizes_app (l1 l2 : list PlanNode) :
  sizes (l1 ++ l2) = (sizes l1 + sizes l2)%nat.
Proof.
  apply sum_list_with_app.
Qed.

Lemma size_pos (n : PlanNode) : (0 < size n)%nat.
Proof. rewrite size_unfold. lia. Qed.

(** ** The parser against the typed view *)

Lemma range_plans_agrees T0 trace_id span_id (l : list json) :
  Forall parse_agrees l →
  ∀ start spans s,
    range_plans (λ c, parseChildPlan c T0 trace_id span_id) l start spans s =
    match decode_all decode_PlanNode l with
    | Some ns =>
        Ok ((foldr Z.min start (final_start T0 <$> ns),
             spans ++ forest_spans (node_spans T0 trace_id span_id) ns s),
            rand.skip (sizes ns) s)
    | None => Panic TypeAssertion
    end.
Proof.
  induction 1 as [|v l Hv _ IH]; intros start spans s; simpl.
  - unfold ret. now rewrite app_nil_r, skip_0.
  - unfold parse_agrees in Hv. unfold bind at 1.
    destruct (decode_PlanNode v) as [n|]; rewrite Hv; [|reflexivity].
    rewrite IH. destruct (decode_all decode_PlanNode l) as [ns|]; [|reflexivity].
    simpl. rewrite skip_skip, <- app_assoc.
    fold (earlier start (final_start T0 n)).
    now rewrite earlier_min, foldr_min_shift.
Qed.

Lemma plans_agrees T0 trace_id span_id (m : list (string * json)) start s :
  Forall (λ kv, parse_agrees kv.2
                ∧ match kv.2 with JArr l => Forall parse_agrees l | _ => True end) m →
  obj_find m "Plans" (ret (start, []))
    (λ plans,
       match plans with
       | JNull => ret (start, [])
       | JArr children =>
           range_plans (λ child_plan, parseChildPlan child_plan T0 trace_id span_id)
             children start []
       | _ => throw TypeAssertion
       end) s =
  match obj_find m "Plans" (Some [])
          (λ plans,
             match plans with
             | JNull => Some []
             | JArr l => decode_all decode_PlanNode l
             | _ => None
             end) with
  | Some ns =>
      Ok ((foldr Z.min start (final_start T0 <$> ns),
           forest_spans (node_spans T0 trace_id span_id) ns s),
          rand.skip (sizes ns) s)
  | None => Panic TypeAssertion
  end.
Proof.
  intros IH.
  rewrite !obj_find_get by reflexivity.
  pose proof (obj_get_Forall
    (λ v, parse_agrees v ∧ match v with JArr l => Forall parse_agrees l | _ => True end)
    m "Plans" (conj (λ _ _ _ _, eq_refl) I) IH) as [_ Hl].
  destruct (obj_get m "Plans") as [| | | |l|]; try reflexivity.
  - simpl. unfold ret. now rewrite skip_0.
  - now rewrite range_plans_agrees.
Qed.

(** Runs [parseChildPlan] on an object up to the end of its children loop,
    whose outcome [Hplans] gives. *)
Ltac run_to_plans Hplans :=
  intros; unfold bind at 1; rewrite generateSpanId_eq;
  cbn [assert_string assert_float64]; unfold bind at 1 2 3; unfold ret at 1 2;
  rewrite Hplans.

Lemma parse_agrees_all (v : json) :
  parse_agrees v ∧ match v with JArr l => Forall parse_agrees l | _ => True end.
Proof.
  induction v as [| | | |l IH|m IH] using json_nested_ind;
    try (split; [intros ? ? ? ?; reflexivity | exact I]).
  - split; [intros ? ? ? ?; reflexivity|].
    eapply Forall_impl; [exact IH|]. now intros ? [? _].
  - split; [|exact I].
    unfold parse_agrees. cbn [decode_PlanNode parseChildPlan].
    destruct (obj_get m "Node Type") as [| | |ty| |];
      cbn [decode_string mbind option_bind]; try (intros; reflexivity).
    destruct (obj_get m "Actual Startup Time") as [| |st| | |];
      cbn [decode_float64 mbind option_bind]; try (intros; reflexivity).
    assert (Hplans := λ T0 tid id start s, plans_agrees T0 tid id m start s IH).
    destruct (obj_find m "Plans" (Some []) _) as [ns|];
      cbn [mbind option_bind]; [|run_to_plans Hplans; reflexivity].
    destruct (obj_get m "Actual Total Time") as [| |tot| | |];
      cbn [decode_float64 mbind option_bind];
      try (run_to_plans Hplans; reflexivity).
    destruct (obj_get m "Actual Rows") as [| |rows| | |];
      cbn [decode_float64 mbind option_bind];
      try (run_to_plans Hplans; reflexivity).
    destruct (obj_get m "Operation") as [| | |op| |];
      cbn [decode_optional mbind option_bind];
      try (run_to_plans Hplans; reflexivity).
    all: destruct (obj_get m "Relation Name") as [| | |rel| |];
      cbn [decode_optional mbind option_bind];
      try (run_to_plans Hplans; reflexivity).
    all: run_to_plans Hplans.
    all: cbn [bind assert_float64 ret set_optional assert_string].
    all: unfold ret; rewrite skip_skip, node_spans_unfold, final_start_unfold, size_unfold.
    all: cbn [children]; unfold node_span, final_end, candidate_end, candidate_start.
    all: rewrite final_start_unfold; cbn [children actualStartupTimeMs actualTotalTimeMs nodeType].
    all: unfold time.Equal, time.Add, time.Nanosecond, candidate_start; cbn [actualStartupTimeMs].
    all: repeat case_bool_decide; repeat case_decide; try congruence.
    all: reflexivity.
Qed.

(** A value that decodes to a plan tree is converted without a panic. *)
Lemma parseChildPlan_decoded (v : json) (n : PlanNode) T0 trace_id parent_span_id s :
  decode_PlanNode v = Some n →
  parseChildPlan v T0 trace_id parent_span_id s =
  Ok ((final_start T0 n, node_spans T0 trace_id parent_span_id s n),
      rand.skip (size n) s).
Proof.
  intros Hn. pose proof (proj1 (parse_agrees_all v)) as H.
  unfold parse_agrees in H. rewrite Hn in H. apply H.
Qed.

(** Any other value makes a type assertion fail. *)
Lemma parseChildPlan_undecoded (v : json) T0 trace_id parent_span_id s :
  decode_PlanNode v = None →
  parseChildPlan v T0 trace_id parent_span_id s = Panic TypeAssertion.
Proof.
  intros Hn. pose proof (proj1 (parse_agrees_all v)) as H.
  unfold parse_agrees in H. rewrite Hn in H. apply H.
Qed.

Lemma parseExecutionPlan_agrees (message : json) (s : rand.Source) :
  parseExecutionPlan message s =
  match decode_PlanDocument message with
  | Some d => Ok (document_spans d s, rand.skip (3 + size (plan d)) s)
  | None => Panic TypeAssertion
  end.
Proof.
  destruct message as [| | | | |m]; try reflexivity.
  unfold parseExecutionPlan, decode_PlanDocument.
  cbn [assert_map]. unfold bind at 1. unfold ret at 1.
  unfold bind at 1. rewrite generateTraceId_eq.
  unfold bind at 1. rewrite generateSpanId_eq, skip_skip.
  rewrite span_id_at_skip. cbn [Nat.add].
  destruct (obj_get m "start timestamp") as [| |start| | |];
    cbn [decode_float64 mbind option_bind]; try reflexivity.
  destruct (obj_get m "duration") as [| |duration| | |];
    cbn [decode_float64  mbind option_bind]; try reflexivity.
  destruct (obj_get m "Query Text") as [| | |query| |];
    cbn [decode_string mbind option_bind]; try reflexivity.
  destruct (obj_get m "username") as [| | |user| |];
    cbn [decode_string mbind option_bind]; try reflexivity.
  destruct (obj_get m "session_username") as [| | |session| |];
    cbn [decode_string mbind option_bind]; try reflexivity.
  destruct (obj_get m "connection_id") as [| |conn| | |];
    cbn [decode_float64 mbind option_bind]; try reflexivity.
  destruct (obj_get m "database_name") as [| | |db| |];
    cbn [decode_string mbind option_bind]; try reflexivity.
  cbn [bind assert_float64 assert_string ret].
  destruct (decode_PlanNode (obj_get m "Plan")) as [n|] eqn:Hn;
    cbn [mbind option_bind].
  - unfold bind. rewrite (parseChildPlan_decoded _ n) by exact Hn.
    rewrite skip_skip. reflexivity.
  - unfold bind. rewrite parseChildPlan_undecoded by exact Hn. reflexivity.
Qed.

(** ** The emitted sequence against the plan tree *)

Lemma postorder_unfold (n : PlanNode) :
  postorder n = mjoin (postorder <$> children n) ++ [n].
Proof. destruct n; reflexivity. Qed.

Lemma forest_spans_length f (cs : list PlanNode) :
  Forall (λ c, ∀ s, length (f s c) = size c) cs →
  ∀ s, length (forest_spans f cs s) = sizes cs.
Proof.
  induction 1 as [|c cs Hc _ IH]; intros s; simpl; [reflexivity|].
  rewrite length_app, Hc, IH. reflexivity.
Qed.

Lemma node_spans_length T0 trace_id (n : PlanNode) :
  ∀ parent_span_id s, length (node_spans T0 trace_id parent_span_id s n) = size n.
Proof.
  induction n as [ty op rel st tot rows cs IH] using PlanNode_nested_ind.
  intros parent_span_id s. rewrite node_spans_unfold, size_unfold, length_app.
  cbn [children]. rewrite forest_spans_length; [simpl; lia|].
  eapply Forall_impl; [exact IH|]. intros c Hc s'. apply Hc.
Qed.

Lemma postorder_length (n : PlanNode) : length (postorder n) = size n.
Proof.
  induction n as [ty op rel st tot rows cs IH] using PlanNode_nested_ind.
  rewrite postorder_unfold, size_unfold, length_app. cbn [children].
  assert (length (mjoin (postorder <$> cs)) = sizes cs) as ->.
  { induction IH as [|c cs Hc _ IHcs]; [reflexivity|].
    rewrite fmap_cons, sizes_cons. simpl. rewrite length_app, Hc, IHcs. reflexivity. }
  simpl. lia.
Qed.

(** Every emitted node span is the span of the node at the same position of
    the post-order listing; its identifier is the encoding of a drawn value,
    its parent identifier the one the tree was converted under or such an
    encoding too. *)
Lemma node_spans_postorder T0 trace_id (n : PlanNode) :
  ∀ parent_span_id s,
    Forall2 (λ m sp, ∃ parent v,
               sp = node_span T0 trace_id parent (binary.LittleEndian_PutUint64 v) m
               ∧ (parent = parent_span_id
                  ∨ ∃ w, parent = binary.LittleEndian_PutUint64 w))
      (postorder n) (node_spans T0 trace_id parent_span_id s n).
Proof.
  induction n as [ty op rel st tot rows cs IH] using PlanNode_nested_ind.
  intros parent_span_id s. rewrite node_spans_unfold, postorder_unfold.
  cbn [children]. apply Forall2_app; [|repeat constructor; eexists _, _; eauto].
  generalize (rand.skip 1 s) as s'.
  induction IH as [|c cs Hc _ IHcs]; intros s'; simpl; [constructor|].
  apply Forall2_app; [|apply IHcs].
  eapply Forall2_impl; [apply Hc|]. intros m sp (parent & v & -> & Hparent).
  exists parent, v. split; [reflexivity|]. right.
  destruct Hparent as [->|Hw]; [eexists; reflexivity | exact Hw].
Qed.

Lemma forest_spans_lookup f (cs : list PlanNode) :
  (∀ c s, length (f s c) = size c) →
  ∀ i c k s, cs !! i = Some c → (k < size c)%nat →
    forest_spans f cs s !! (sizes (take i cs) + k)%nat
    = f (rand.skip (sizes (take i cs)) s) c !! k.
Proof.
  intros Hlen. induction cs as [|c0 cs IH]; intros i c k s Hi Hk; [done|].
  destruct i as [|i]; cbn [take forest_spans]; cbn [lookup list_lookup] in Hi.
  - injection Hi as ->. cbn [sizes sum_list_with Nat.add]. rewrite skip_0.
    apply lookup_app_l. now rewrite Hlen.
  - rewrite sizes_cons, lookup_app_r; rewrite Hlen; [|lia].
    replace (size c0 + sizes (take i cs) + k - size c0)%nat
      with (sizes (take i cs) + k)%nat by lia.
    rewrite (IH i c k _ Hi Hk), skip_skip. reflexivity.
Qed.

(** ** Paths into the plan tree *)

Lemma sizes_take_lookup (cs : list PlanNode) (i : nat) (c : PlanNode) :
  cs !! i = Some c → (sizes (take i cs) + size c ≤ sizes cs)%nat.
Proof.
  intros Hi. rewrite <- (take_drop_middle cs i c Hi) at 2.
  rewrite sizes_app, sizes_cons. lia.
Qed.

Lemma post_index_lt (p : list nat) :
  ∀ n m, subnode n p = Some m → (post_index n p < size n)%nat.
Proof.
  induction p as [|i p IH]; intros n m Hm; simpl in *.
  - pose proof (size_pos n). lia.
  - destruct (children n !! i) as [c|] eqn:Hi; [|done].
    specialize (IH c m Hm). pose proof (sizes_take_lookup _ _ _ Hi).
    rewrite (size_unfold n). lia.
Qed.

Lemma pre_index_lt (p : list nat) :
  ∀ n m, subnode n p = Some m → (pre_index n p < size n)%nat.
Proof.
  induction p as [|i p IH]; intros n m Hm; simpl in *.
  - apply size_pos.
  - destruct (children n !! i) as [c|] eqn:Hi; [|done].
    specialize (IH c m Hm). pose proof (sizes_take_lookup _ _ _ Hi).
    rewrite (size_unfold n). lia.
Qed.

(** The span found at a node's post-order position is the span of that
    node. *)
Lemma node_spans_lookup T0 trace_id (p : list nat) :
  ∀ n m parent_span_id s,
    subnode n p = Some m →
    node_spans T0 trace_id parent_span_id s n !! post_index n p
    = span_at T0 trace_id parent_span_id s n p.
Proof.
  induction p as [|i p IH]; intros n m parent_span_id s Hm;
    rewrite node_spans_unfold; simpl in *.
  - rewrite lookup_app_r; rewrite forest_spans_length;
      try (apply Forall_forall; intros; apply node_spans_length);
      rewrite size_unfold; [|lia].
    replace (S (sizes (children n)) - 1 - sizes (children n))%nat with 0%nat by lia.
    reflexivity.
  - destruct (children n !! i) as [c|] eqn:Hi; [|done].
    pose proof (post_index_lt p c m Hm) as Hlt.
    pose proof (sizes_take_lookup _ _ _ Hi) as Hle.
    rewrite lookup_app_l
      by (rewrite forest_spans_length;
          [lia | apply Forall_forall; intros; apply node_spans_length]).
    rewrite (forest_spans_lookup _ _ (λ c s, node_spans_length _ _ c _ s) i c _ _ Hi Hlt).
    rewrite skip_skip, (IH c m _ _ Hm). reflexivity.
Qed.

(** The span of the node at a path: its identifier is the one drawn at the
    node's pre-order position, its parent identifier the one drawn for the
    node one step up the path. *)
Lemma span_at_spec T0 trace_id (p : list nat) :
  ∀ n m parent_span_id s,
    subnode n p = Some m →
    span_at T0 trace_id parent_span_id s n p =
    Some (node_span T0 trace_id
            (match p with
             | [] => parent_span_id
             | _ => span_id_at s (pre_index n (removelast p))
             end)
            (span_id_at s (pre_index n p)) m).
Proof.
  induction p as [|i p IH]; intros n m parent_span_id s Hm; simpl in *.
  - now injection Hm as ->.
  - destruct (children n !! i) as [c|] eqn:Hi; [|done].
    rewrite (IH c m _ _ Hm), !span_id_at_skip.
    destruct p as [|j p]; simpl.
    + rewrite Nat.add_0_r. reflexivity.
    + rewrite Hi. reflexivity.
Qed.

Lemma subnode_app (p q : list nat) :
  ∀ n, subnode n (p ++ q) = subnode n p ≫= λ m, subnode m q.
Proof.
  induction p as [|i p IH]; intros n; simpl; [reflexivity|].
  destruct (children n !! i); [apply IH | reflexivity].
Qed.

(** A descendant precedes its ancestor in the post-order listing. *)
Lemma post_index_descendant (p q : list nat) :
  ∀ n m, q ≠ [] → subnode n (p ++ q) = Some m →
         (post_index n (p ++ q) < post_index n p)%nat.
Proof.
  induction p as [|i p IH]; intros n m Hq Hm; simpl in *.
  - destruct q as [|j q]; [done|]. simpl in *.
    destruct (children n !! j) as [c|] eqn:Hj; [|done].
    pose proof (post_index_lt q c m Hm). pose proof (sizes_take_lookup _ _ _ Hj).
    rewrite (size_unfold n). lia.
  - destruct (children n !! i) as [c|] eqn:Hi; [|done].
    specialize (IH c m Hq Hm). lia.
Qed.

(** Every position of the listing is the position of some node. *)
Lemma post_index_onto (n : PlanNode) :
  ∀ k, (k < size n)%nat → ∃ p m, subnode n p = Some m ∧ post_index n p = k.
Proof.
  induction n as [ty op rel st tot rows cs IH] using PlanNode_nested_ind.
  intros k Hk. rewrite size_unfold in Hk. cbn [children] in Hk.
  destruct (decide (k = sizes cs)) as [->|Hne].
  { exists [], (mkPlanNode ty op rel st tot rows cs). split; [reflexivity|].
    simpl. fold (sizes cs). lia. }
  assert (k < sizes cs)%nat as Hk' by lia. clear Hk Hne.
  assert (∃ i c j, cs !! i = Some c ∧ (j < size c)%nat ∧ k = (sizes (take i cs) + j)%nat)
    as (i & c & j & Hi & Hj & ->).
  { clear IH. revert k Hk'. induction cs as [|c cs IHcs]; intros k Hk; [simpl in Hk; lia|].
    rewrite sizes_cons in Hk. destruct (decide (k < size c)%nat) as [Hlt|Hge].
    - exists 0%nat, c, k. split; [reflexivity | split; [exact Hlt | reflexivity]].
    - destruct (IHcs (k - size c)%nat) as (i & c' & j & Hi & Hj & Heq); [lia|].
      exists (S i), c', j. split; [exact Hi | split; [exact Hj |]].
      cbn [take]. rewrite sizes_cons. lia. }
  rewrite Forall_lookup in IH. destruct (IH i c Hi j Hj) as (p & m & Hm & Hp).
  exists (i :: p), m. simpl. rewrite Hi. split; [exact Hm | lia].
Qed.

(** ** Timestamps and reconciled times *)

Lemma Timestamp_nanos_TimeToTimestamp (t : time.Time) :
  Timestamp_nanos (TimeToTimestamp t) = t.
Proof.
  unfold Timestamp_nanos, TimeToTimestamp. simpl.
  pose proof (Z.quot_rem' t 1000000000). lia.
Qed.

Lemma final_start_le_candidate T0 (n : PlanNode) :
  final_start T0 n <= candidate_start T0 n.
Proof. rewrite final_start_unfold. apply foldr_min_le_init. Qed.

Lemma final_start_le_child T0 (n c : PlanNode) :
  c ∈ children n → final_start T0 n <= final_start T0 c.
Proof.
  intros Hc. rewrite (final_start_unfold T0 n).
  apply foldr_min_le_elem, list_elem_of_fmap. eauto.
Qed.

Lemma foldr_min_lower_bound (b a : Z) (l : list Z) :
  b <= a → Forall (λ x, b <= x) l → b <= foldr Z.min a l.
Proof.
  intros Ha. induction 1; simpl; lia.
Qed.

Lemma postorder_self (n : PlanNode) : n ∈ postorder n.
Proof. rewrite postorder_unfold. set_solver. Qed.

Lemma postorder_child (n c : PlanNode) :
  c ∈ children n → postorder c ⊆ postorder n.
Proof.
  intros Hc m Hm. rewrite (postorder_unfold n). apply elem_of_app. left.
  apply list_elem_of_join. exists (postorder c). split; [exact Hm|].
  apply list_elem_of_fmap. eauto.
Qed.

(** No node of the tree starts before [T0] when none reports an offset that
    converts to a negative duration. *)
Lemma final_start_lower_bound T0 (n : PlanNode) :
  Forall (λ m, 0 <= ms_to_Duration (actualStartupTimeMs m)) (postorder n) →
  T0 <= final_start T0 n.
Proof.
  induction n as [ty op rel st tot rows cs IH] using PlanNode_nested_ind.
  intros Hall. rewrite final_start_unfold. cbn [children].
  apply foldr_min_lower_bound.
  - rewrite Forall_forall in Hall.
    specialize (Hall _ (postorder_self (mkPlanNode ty op rel st tot rows cs))).
    unfold candidate_start. simpl in *. lia.
  - apply Forall_fmap, Forall_forall. intros c Hc.
    rewrite Forall_forall in IH. apply (IH c Hc).
    rewrite Forall_forall in Hall |- *. intros m Hm. apply Hall.
    now apply (postorder_child (mkPlanNode ty op rel st tot rows cs) c).
Qed.

Lemma final_end_ne_start T0 (n : PlanNode) : final_end T0 n ≠ final_start T0 n.
Proof. unfold final_end. case_decide; lia. Qed.

Lemma final_end_after_start T0 (n : PlanNode) :
  final_start T0 n <= candidate_end T0 n → final_start T0 n < final_end T0 n.
Proof. unfold final_end. case_decide; lia. Qed.

Lemma final_end_one_nanosecond T0 (n : PlanNode) :
  candidate_end T0 n = final_start T0 n → final_end T0 n = final_start T0 n + 1.
Proof. unfold final_end. case_decide; lia. Qed.

(** ** Identifiers *)

Lemma Z_of_byte_of_Z (z : Z) :
  binary.Z_of_byte (binary.byte_of_Z z) = z mod 256.
Proof.
  unfold binary.Z_of_byte, binary.byte_of_Z.
  pose proof (Z.mod_pos_bound z 256 eq_refl) as Hb.
  destruct (Byte.of_N (Z.to_N (z mod 256))) as [b|] eqn:E; simpl.
  - apply Byte.to_of_N in E. rewrite E. lia.
  - apply Byte.of_N_None_iff in E. lia.
Qed.

Lemma LittleEndian_Uint64_PutUint64 (v : Z) :
  0 <= v < 2 ^ 64 →
  binary.LittleEndian_Uint64 (binary.LittleEndian_PutUint64 v) = v.
Proof.
  intros Hv. unfold binary.LittleEndian_Uint64, binary.LittleEndian_PutUint64.
  cbn [fmap list_fmap foldr]. rewrite !Z_of_byte_of_Z, !Z.shiftr_div_pow2 by lia.
  change (2 ^ (8 * 0)) with 1. rewrite Z.div_1_r.
  assert (∀ q k, 0 < k → (q / k) mod 256 = q / k - 256 * (q / (k * 256))) as Hstep.
  { intros q k Hk. rewrite <- Z.div_div by lia. apply Z.mod_eq. lia. }
  rewrite (Z.mod_eq v 256) by lia.
  change (2 ^ (8 * 1)) with 256.
  change (2 ^ (8 * 2)) with (256 * 256).
  change (2 ^ (8 * 3)) with (256 * 256 * 256).
  change (2 ^ (8 * 4)) with (256 * 256 * 256 * 256).
  change (2 ^ (8 * 5)) with (256 * 256 * 256 * 256 * 256).
  change (2 ^ (8 * 6)) with (256 * 256 * 256 * 256 * 256 * 256).
  change (2 ^ (8 * 7)) with (256 * 256 * 256 * 256 * 256 * 256 * 256).
  rewrite !Hstep by lia.
  assert (v / (256 * 256 * 256 * 256 * 256 * 256 * 256 * 256) = 0) as Htop
    by (apply Z.div_small; lia).
  rewrite Htop. lia.
Qed.

Lemma LittleEndian_PutUint64_length (v : Z) :
  length (binary.LittleEndian_PutUint64 v) = 8%nat.
Proof. reflexivity. Qed.

Lemma peek_range (s : rand.Source) (k : nat) : 0 <= rand.peek s k < 2 ^ 64.
Proof. unfold rand.peek. apply Z.mod_pos_bound. lia. Qed.

Lemma span_id_at_inj (s : rand.Source) (j k : nat) :
  span_id_at s j = span_id_at s k → rand.peek s j = rand.peek s k.
Proof.
  unfold span_id_at. intros H.
  apply (f_equal binary.LittleEndian_Uint64) in H.
  now rewrite !LittleEndian_Uint64_PutUint64 in H by apply peek_range.
Qed.

Lemma span_id_at_skip_seq (a : nat) (s : rand.Source) (k : nat) :
  ∀ i, span_id_at (rand.skip a s) <$> seq i k = span_id_at s <$> seq (a + i) k.
Proof.
  induction k as [|k IH]; intros i; simpl; [reflexivity|].
  rewrite span_id_at_skip, IH, Nat.add_succ_r. reflexivity.
Qed.

Lemma forest_spans_ids f (cs : list PlanNode) :
  Forall (λ c, ∀ s, SpanId <$> f s c ≡ₚ span_id_at s <$> seq 0 (size c)) cs →
  ∀ s, SpanId <$> forest_spans f cs s ≡ₚ span_id_at s <$> seq 0 (sizes cs).
Proof.
  induction 1 as [|c cs Hc _ IH]; intros s; [reflexivity|].
  cbn [forest_spans]. rewrite sizes_cons, seq_app, !fmap_app, Hc, IH.
  rewrite span_id_at_skip_seq, Nat.add_comm. reflexivity.
Qed.

(** The identifiers of the node spans are the identifiers drawn, one per
    node. *)
Lemma node_spans_ids T0 trace_id (n : PlanNode) :
  ∀ parent_span_id s,
    SpanId <$> node_spans T0 trace_id parent_span_id s n
    ≡ₚ span_id_at s <$> seq 0 (size n).
Proof.
  induction n as [ty op rel st tot rows cs IH] using PlanNode_nested_ind.
  intros parent_span_id s. rewrite node_spans_unfold, size_unfold. cbn [children].
  rewrite fmap_app, forest_spans_ids
    by (eapply Forall_impl; [exact IH|]; intros c Hc s'; apply Hc).
  rewrite span_id_at_skip_seq. simpl.
  rewrite <- Permutation_cons_append. reflexivity.
Qed.

(** ** The children of a decoded node *)

Lemma decode_all_Forall2 {A : Type} (decode : json → option A) (l : list json) :
  ∀ r, decode_all decode l = Some r → Forall2 (λ v a, decode v = Some a) l r.
Proof.
  induction l as [|v l IH]; intros r Hr; simpl in Hr.
  - injection Hr as <-. constructor.
  - destruct (decode v) as [a|] eqn:Hv; [|done].
    destruct (decode_all decode l) as [r'|]; [|done].
    injection Hr as <-. constructor; [exact Hv | now apply IH].
Qed.

Lemma decode_PlanNode_children (v : json) (n : PlanNode) :
  decode_PlanNode v = Some n →
  Forall2 (λ cv c, decode_PlanNode cv = Some c) (plans_of v) (children n).
Proof.
  destruct v as [| | | | |m]; try done.
  cbn [decode_PlanNode plans_of]. rewrite obj_find_get by reflexivity.
  intros H.
  destruct (decode_string (obj_get m "Node Type")); [|done].
  destruct (decode_float64 (obj_get m "Actual Startup Time")); [|done].
  cbn [mbind option_bind] in H.
  destruct (obj_get m "Plans") as [| | | |l|]; try done.
  - cbn [mbind option_bind] in H. simplify_option_eq. constructor.
  - destruct (decode_all decode_PlanNode l) as [ns|] eqn:Hall; [|done].
    cbn [mbind option_bind] in H. simplify_option_eq.
    now apply decode_all_Forall2.
Qed.

(** * The claims *)

(** C1: for every plan node, the start time [parseChildPlan] returns and
    stamps on the node's own span is the minimum of the node's candidate
    start [T0 + Actual Startup Time] and the final start times of its
    children, which are the start times the recursive calls return for the
    child plans; a node with candidate start 5ms and one child with final
    start 2ms gets final start 2ms. *)
Theorem final_start_is_minimum (v : json) (n : PlanNode)
    (T0 : time.Time) (trace_id parent_span_id : list byte) (s : rand.Source) :
  decode_PlanNode v = Some n →
  (∃ spans own,
     parseChildPlan v T0 trace_id parent_span_id s
       = Ok ((final_start T0 n, spans ++ [own]), rand.skip (size n) s)
     ∧ StartTime own = TimeToTimestamp (final_start T0 n))
  ∧ Forall2 (λ child_plan c,
       ∀ parent s', ∃ child_spans,
         parseChildPlan child_plan T0 trace_id parent s'
         = Ok ((final_start T0 c, child_spans), rand.skip (size c) s'))
      (plans_of v) (children n)
  ∧ final_start T0 n <= candidate_start T0 n
  ∧ (∀ c, c ∈ children n → final_start T0 n <= final_start T0 c)
  ∧ (final_start T0 n = candidate_start T0 n
     ∨ ∃ c, c ∈ children n ∧ final_start T0 n = final_start T0 c)
  ∧ (∀ c, children n = [c] →
          candidate_start T0 n = T0 + 5 * time.Millisecond →
          final_start T0 c = T0 + 2 * time.Millisecond →
          final_start T0 n = T0 + 2 * time.Millisecond).
Proof.
  intros Hn. repeat split.
  - eexists _, _. rewrite (parseChildPlan_decoded v n) by exact Hn.
    rewrite node_spans_unfold. split; reflexivity.
  - eapply Forall2_impl; [exact (decode_PlanNode_children v n Hn)|].
    intros cv c Hc parent s'. eexists. now apply parseChildPlan_decoded.
  - apply final_start_le_candidate.
  - intros c. apply final_start_le_child.
  - rewrite (final_start_unfold T0 n).
    destruct (foldr_min_attained (candidate_start T0 n) (final_start T0 <$> children n))
      as [H|H]; [now left|right].
    apply list_elem_of_fmap in H as (c & Hc & Hin). eauto.
  - intros c Hcs Hown Hchild. rewrite final_start_unfold, Hcs. simpl.
    unfold time.Millisecond in *. lia.
Qed.

Lemma final_start_is_minimum_witness :
  ∃ spans own,
    parseChildPlan scenario_node 0 [] [] counting_source
      = Ok ((2000000, spans ++ [own]), rand.skip 2 counting_source)
    ∧ StartTime own = {| Seconds := 0; Nanos := 2000000 |}.
Proof.
  destruct (final_start_is_minimum scenario_node scenario_tree 0 [] [] counting_source
              eq_refl) as [(spans & own & Hrun & Hown) _].
  exists spans, own. split; [exact Hrun | exact Hown].
Defined.

(** ** Documents *)

Lemma parseExecutionPlan_decoded (message : json) (d : PlanDocument) (s : rand.Source) :
  decode_PlanDocument message = Some d →
  parseExecutionPlan message s =
  Ok (node_spans (trace_start d) (trace_id_at s) (span_id_at s 2) (rand.skip 3 s) (plan d)
        ++ [root_span d s],
      rand.skip (3 + size (plan d)) s).
Proof.
  intros Hd. rewrite parseExecutionPlan_agrees, Hd. reflexivity.
Qed.

Lemma parseExecutionPlan_undecoded (message : json) (s : rand.Source) :
  decode_PlanDocument message = None →
  parseExecutionPlan message s = Panic TypeAssertion.
Proof.
  intros Hd. rewrite parseExecutionPlan_agrees, Hd. reflexivity.
Qed.

Lemma node_span_start T0 trace_id parent id (m : PlanNode) :
  span_start (node_span T0 trace_id parent id m) = final_start T0 m.
Proof. apply Timestamp_nanos_TimeToTimestamp. Qed.

Lemma node_span_end T0 trace_id parent id (m : PlanNode) :
  span_end (node_span T0 trace_id parent id m) = final_end T0 m.
Proof. apply Timestamp_nanos_TimeToTimestamp. Qed.

(** C2, as the code has it: every node span has an end different from its
    start, and an end after its start whenever the node's candidate end
    [T0 + Actual Total Time] is not before its final start, which is the case
    when its total time converts to no shorter a duration than its startup
    time; the root span has its end after its start whenever the instant of
    [start timestamp + duration] is after the instant of [start timestamp].
    The end is moved only when it equals the start, and never on the root
    span. *)
Theorem span_end_after_start (message : json) (d : PlanDocument) (s : rand.Source) :
  decode_PlanDocument message = Some d →
  ∃ nodes root,
    parseExecutionPlan message s = Ok (nodes ++ [root], rand.skip (3 + size (plan d)) s)
    ∧ Forall2 (λ m sp,
         span_end sp ≠ span_start sp
         ∧ (final_start (trace_start d) m <= candidate_end (trace_start d) m →
            span_start sp < span_end sp)
         ∧ (ms_to_Duration (actualStartupTimeMs m) <= ms_to_Duration (actualTotalTimeMs m) →
            span_start sp < span_end sp))
        (postorder (plan d)) nodes
    ∧ span_start root = trace_start d
    ∧ span_end root = trace_end d
    ∧ (trace_start d < trace_end d → span_start root < span_end root).
Proof.
  intros Hd. eexists _, _. split; [now apply parseExecutionPlan_decoded|].
  split; [|split; [|split]].
  - eapply Forall2_impl; [apply node_spans_postorder|].
    intros m sp (parent & v & -> & _). rewrite node_span_start, node_span_end.
    split; [apply final_end_ne_start|].
    split; [apply final_end_after_start|].
    intros Hle. apply final_end_after_start.
    pose proof (final_start_le_candidate (trace_start d) m).
    unfold candidate_start, candidate_end in *. lia.
  - apply Timestamp_nanos_TimeToTimestamp.
  - apply Timestamp_nanos_TimeToTimestamp.
  - unfold span_start, span_end, root_span. simpl.
    now rewrite !Timestamp_nanos_TimeToTimestamp.
Qed.

Lemma span_end_after_start_witness :
  ∃ nodes root,
    parseExecutionPlan example_plan counting_source
      = Ok (nodes ++ [root], rand.skip 4 counting_source)
    ∧ Forall2 (λ m sp,
         span_end sp ≠ span_start sp
         ∧ (final_start (trace_start example_document) m
              <= candidate_end (trace_start example_document) m →
            span_start sp < span_end sp)
         ∧ (ms_to_Duration (actualStartupTimeMs m) <= ms_to_Duration (actualTotalTimeMs m) →
            span_start sp < span_end sp))
        (postorder (plan example_document)) nodes
    ∧ span_start root = trace_start example_document
    ∧ span_end root = trace_end example_document
    ∧ (trace_start example_document < trace_end example_document →
       span_start root < span_end root).
Proof.
  apply (span_end_after_start example_plan example_document counting_source).
  vm_compute. reflexivity.
Defined.

(** C2 as stated fails: the root span of a document of duration zero ends
    when it starts, and the span of a node whose total time is below its
    startup time ends before it starts. *)
Lemma span_end_after_start_counterexample :
  ∃ spans s',
    parseExecutionPlan stalled_plan counting_source = Ok (spans, s')
    ∧ ¬ Forall (λ sp, span_start sp < span_end sp) spans
    ∧ ∃ node root, spans = [node; root]
        ∧ span_end node < span_start node
        ∧ span_end root = span_start root.
Proof.
  eexists _, _. split; [vm_compute; reflexivity|]. split.
  - intros H. apply Forall_cons_1 in H as [H _]. vm_compute in H. discriminate H.
  - eexists _, _. split; [reflexivity|]. split; vm_compute; reflexivity.
Qed.

(** ** The poll tick *)

Lemma range_rows_app pid (before after : list row) :
  ∀ sink s,
    range_rows pid (before ++ after) sink s =
    match range_rows pid before sink s with
    | (Returns, sink', s') => range_rows pid after sink' s'
    | stopped => stopped
    end.
Proof.
  induction before as [|[| |message] before IH]; intros sink s; simpl;
    try apply IH; [reflexivity|].
  destruct (parseExecutionPlan message s) as [[spans s']|p]; [apply IH | reflexivity].
Qed.

(** A document that lacks one of its required keys does not decode. *)
Lemma missing_key_undecoded (m : list (string * json)) (k : string) :
  k ∈ ["start timestamp"; "duration"; "Query Text"; "username";
       "session_username"; "connection_id"; "database_name"; "Plan"] →
  obj_get m k = JNull →
  decode_PlanDocument (JObj m) = None.
Proof.
  intros Hk Hnull. cbn [decode_PlanDocument].
  destruct (obj_get m "start timestamp") eqn:E1;
    cbn [decode_float64 mbind option_bind]; try reflexivity.
  destruct (obj_get m "duration") eqn:E2;
    cbn [decode_float64 mbind option_bind]; try reflexivity.
  destruct (obj_get m "Query Text") eqn:E3;
    cbn [decode_string mbind option_bind]; try reflexivity.
  destruct (obj_get m "username") eqn:E4;
    cbn [decode_string mbind option_bind]; try reflexivity.
  destruct (obj_get m "session_username") eqn:E5;
    cbn [decode_string mbind option_bind]; try reflexivity.
  destruct (obj_get m "connection_id") eqn:E6;
    cbn [decode_float64 mbind option_bind]; try reflexivity.
  destruct (obj_get m "database_name") eqn:E7;
    cbn [decode_string mbind option_bind]; try reflexivity.
  destruct (decode_PlanNode (obj_get m "Plan")) eqn:E8; [exfalso|reflexivity].
  repeat (apply elem_of_cons in Hk as [->|Hk]; [congruence|]).
  apply elem_of_cons in Hk as [->|Hk]; [|inversion Hk].
  rewrite Hnull in E8. discriminate E8.
Qed.

(** C3, as the code has it: a document with a missing or ill-typed required
    field makes [parseExecutionPlan] panic on a type assertion, so none of
    its spans reaches the next processor; the batches of the records before
    it have been handed over; the panic is not recovered anywhere, it leaves
    the row loop, and the records after it are not processed. *)
Theorem shape_error_aborts_tick (pid : Z) (before after : list row) (bad : json)
    (sink sink' : list TraceData) (s s' : rand.Source) :
  decode_PlanDocument bad = None →
  range_rows pid before sink s = (Returns, sink', s') →
  parseExecutionPlan bad s' = Panic TypeAssertion
  ∧ ProcessExecutionPlan pid (Some (before ++ Unmarshalled bad :: after)) sink s
    = (Panics TypeAssertion, sink', s').
Proof.
  intros Hbad Hbefore. split; [now apply parseExecutionPlan_undecoded|].
  unfold ProcessExecutionPlan. rewrite range_rows_app, Hbefore. simpl.
  now rewrite parseExecutionPlan_undecoded.
Qed.

Lemma shape_error_aborts_tick_witness :
  ∃ sink' s',
    ProcessExecutionPlan 1
      (Some ([Unmarshalled example_plan]
               ++ Unmarshalled nameless_plan :: [Unmarshalled example_plan]))
      [] counting_source
    = (Panics TypeAssertion, sink', s')
    ∧ length sink' = 1%nat.
Proof.
  eexists _, _. split.
  - refine (proj2 (shape_error_aborts_tick 1 [Unmarshalled example_plan]
                     [Unmarshalled example_plan] nameless_plan [] _ counting_source _ _ _)).
    + vm_compute. reflexivity.
    + vm_compute. reflexivity.
  - reflexivity.
Defined.

(** C3 as stated fails: after a record without ["username"], a well-formed
    record of the same tick yields no spans, because the tick ends in the
    panic. *)
Lemma shape_error_counterexample :
  decode_PlanDocument nameless_plan = None
  ∧ decode_PlanDocument example_plan = Some example_document
  ∧ ProcessExecutionPlan 1
      (Some [Unmarshalled nameless_plan; Unmarshalled example_plan]) [] counting_source
    = (Panics TypeAssertion, [], counting_source).
Proof.
  repeat split; vm_compute; reflexivity.
Qed.

(** ** Spans by path *)

Lemma node_span_at_path T0 trace_id (p : list nat) (n m : PlanNode)
    (parent_span_id : list byte) (s : rand.Source) :
  subnode n p = Some m →
  node_spans T0 trace_id parent_span_id s n !! post_index n p
  = Some (node_span T0 trace_id (path_parent_id parent_span_id s n p)
            (span_id_at s (pre_index n p)) m).
Proof.
  intros Hm. rewrite (node_spans_lookup _ _ p n m) by exact Hm.
  now apply span_at_spec.
Qed.

Lemma path_parent_id_snoc parent_span_id s (n : PlanNode) (p : list nat) (i : nat) :
  path_parent_id parent_span_id s n (p ++ [i]) = span_id_at s (pre_index n p).
Proof.
  unfold path_parent_id. rewrite removelast_last.
  destruct p; reflexivity.
Qed.

Lemma subnode_snoc (n c : PlanNode) (p : list nat) (i : nat) :
  subnode n (p ++ [i]) = Some c →
  ∃ m, subnode n p = Some m ∧ children m !! i = Some c.
Proof.
  rewrite subnode_app. destruct (subnode n p) as [m|]; [|done]. simpl.
  intros H. exists m. split; [reflexivity|].
  destruct (children m !! i); [exact H | done].
Qed.

(** C4, as the code has it: the span of a plan node starts no later than
    the span of each of its child nodes, whose parent it is; the root span,
    parent of the top node's span, starts at the instant of [start timestamp]
    whatever the plan reports, which is no later than the top node's span
    when no node of the plan reports a startup offset that converts to a
    negative duration. *)
Theorem parent_starts_no_later (message : json) (d : PlanDocument) (s : rand.Source) :
  decode_PlanDocument message = Some d →
  ∃ nodes root,
    parseExecutionPlan message s = Ok (nodes ++ [root], rand.skip (3 + size (plan d)) s)
    ∧ (∀ p i c parent child,
         subnode (plan d) (p ++ [i]) = Some c →
         nodes !! post_index (plan d) p = Some parent →
         nodes !! post_index (plan d) (p ++ [i]) = Some child →
         ParentSpanId child = SpanId parent
         ∧ span_start parent <= span_start child)
    ∧ (∀ top,
         nodes !! post_index (plan d) [] = Some top →
         ParentSpanId top = SpanId root
         ∧ span_start root = trace_start d
         ∧ (Forall (λ m, 0 <= ms_to_Duration (actualStartupTimeMs m)) (postorder (plan d)) →
            span_start root <= span_start top)).
Proof.
  intros Hd. eexists _, _. split; [now apply parseExecutionPlan_decoded|]. split.
  - intros p i c parent child Hc Hparent Hchild.
    destruct (subnode_snoc _ _ _ _ Hc) as (m & Hm & Hi).
    rewrite (node_span_at_path _ _ p _ m) in Hparent by exact Hm.
    rewrite (node_span_at_path _ _ (p ++ [i]) _ c) in Hchild by exact Hc.
    injection Hparent as <-. injection Hchild as <-.
    rewrite path_parent_id_snoc, !node_span_start. split; [reflexivity|].
    apply final_start_le_child. eapply list_elem_of_lookup_2, Hi.
  - intros top Htop.
    rewrite (node_span_at_path _ _ [] _ (plan d)) in Htop by reflexivity.
    injection Htop as <-. rewrite node_span_start.
    split; [reflexivity|].
    split; [apply Timestamp_nanos_TimeToTimestamp|].
    intros Hall. unfold span_start, root_span. simpl.
    rewrite Timestamp_nanos_TimeToTimestamp. now apply final_start_lower_bound.
Qed.

Lemma parent_starts_no_later_witness :
  ∃ nodes root parent child,
    parseExecutionPlan (document_of scenario_node) counting_source
      = Ok (nodes ++ [root], rand.skip 5 counting_source)
    ∧ nodes !! 1%nat = Some parent
    ∧ nodes !! 0%nat = Some child
    ∧ ParentSpanId child = SpanId parent
    ∧ span_start parent <= span_start child
    ∧ ParentSpanId parent = SpanId root
    ∧ span_start root <= span_start parent.
Proof.
  destruct (parent_starts_no_later (document_of scenario_node)
              (decoded_document_of scenario_tree) counting_source eq_refl)
    as (nodes & root & Hrun & Hpairs & Htop).
  assert (nodes = node_spans (trace_start (decoded_document_of scenario_tree))
                    (trace_id_at counting_source) (span_id_at counting_source 2)
                    (rand.skip 3 counting_source) scenario_tree) as Hnodes.
  { rewrite (parseExecutionPlan_decoded _ (decoded_document_of scenario_tree)) in Hrun
      by reflexivity.
    apply (f_equal (λ r, match r with Ok (l, _) => l | Panic _ => [] end)) in Hrun.
    cbv beta iota in Hrun. now apply app_inj_tail in Hrun as [<- _]. }
  assert (is_Some (nodes !! 1%nat)) as [parent Hparent] by (rewrite Hnodes; eexists; reflexivity).
  assert (is_Some (nodes !! 0%nat)) as [child Hchild] by (rewrite Hnodes; eexists; reflexivity).
  exists nodes, root, parent, child.
  destruct (Hpairs [] 0%nat _ parent child eq_refl Hparent Hchild) as [Hlink Hle].
  destruct (Htop parent Hparent) as (Hroot & _ & Hbound).
  repeat split; try assumption.
  apply Hbound. repeat constructor; vm_compute; discriminate.
Defined.

(** C4 as stated fails for the root span and the top node's span: a top node
    that reports a negative startup time gets a span that starts before the
    root span, its parent. *)
Lemma parent_starts_no_later_counterexample :
  ∃ top root s',
    parseExecutionPlan (document_of early_node) counting_source = Ok ([top; root], s')
    ∧ ParentSpanId top = SpanId root
    ∧ ParentSpanId root = []
    ∧ span_start top < span_start root.
Proof.
  eexists _, _, _. split; [vm_compute; reflexivity|].
  repeat split.
Qed.

Lemma emitted_spans_determined (message : json) (d : PlanDocument) (s s' : rand.Source)
    (nodes : list Span) (root : Span) :
  decode_PlanDocument message = Some d →
  parseExecutionPlan message s = Ok (nodes ++ [root], s') →
  nodes = node_spans (trace_start d) (trace_id_at s) (span_id_at s 2) (rand.skip 3 s) (plan d)
  ∧ root = root_span d s.
Proof.
  intros Hd Hrun. rewrite (parseExecutionPlan_decoded _ d) in Hrun by exact Hd.
  apply (f_equal (λ r, match r with Ok (l, _) => l | Panic _ => [] end)) in Hrun.
  cbv beta iota in Hrun. now apply app_inj_tail in Hrun as [<- <-].
Qed.

(** C5, as the code has it: a plan node that reports equal startup and total
    times, and none of whose children has a final start before the node's
    own candidate start (every leaf is such a node), gets a span that ends
    exactly one nanosecond after it starts; in general the end is one
    nanosecond after the start exactly when the candidate end
    [T0 + Actual Total Time] equals the final start. *)
Theorem equal_times_one_nanosecond (message : json) (d : PlanDocument) (s : rand.Source) :
  decode_PlanDocument message = Some d →
  ∃ nodes root,
    parseExecutionPlan message s = Ok (nodes ++ [root], rand.skip (3 + size (plan d)) s)
    ∧ Forall2 (λ m sp,
         (actualStartupTimeMs m = actualTotalTimeMs m →
          (∀ c, c ∈ children m →
                candidate_start (trace_start d) m <= final_start (trace_start d) c) →
          span_start sp = candidate_start (trace_start d) m
          ∧ span_end sp = span_start sp + 1)
         ∧ (candidate_end (trace_start d) m = final_start (trace_start d) m →
            span_end sp = span_start sp + 1)
         ∧ (candidate_end (trace_start d) m ≠ final_start (trace_start d) m →
            span_end sp = candidate_end (trace_start d) m))
        (postorder (plan d)) nodes.
Proof.
  intros Hd. eexists _, _. split; [now apply parseExecutionPlan_decoded|].
  eapply Forall2_impl; [apply node_spans_postorder|].
  intros m sp (parent & v & -> & _). rewrite node_span_start, node_span_end.
  split; [|split].
  - intros Heq Hchildren.
    assert (final_start (trace_start d) m = candidate_start (trace_start d) m) as Hstart.
    { apply Z.le_antisymm; [apply final_start_le_candidate|].
      rewrite (final_start_unfold _ m). apply foldr_min_lower_bound; [lia|].
      apply Forall_fmap, Forall_forall. exact Hchildren. }
    split; [exact Hstart|]. apply final_end_one_nanosecond.
    rewrite Hstart. unfold candidate_end, candidate_start. now rewrite Heq.
  - apply final_end_one_nanosecond.
  - intros Hne. unfold final_end. now case_decide.
Qed.

Lemma equal_times_one_nanosecond_witness :
  ∃ nodes root leaf,
    parseExecutionPlan (document_of instant_leaf) counting_source
      = Ok (nodes ++ [root], rand.skip 4 counting_source)
    ∧ nodes = [leaf]
    ∧ span_start leaf = 1000002000000
    ∧ span_end leaf = 1000002000001.
Proof.
  destruct (equal_times_one_nanosecond (document_of instant_leaf)
              (decoded_document_of instant_leaf_tree) counting_source eq_refl)
    as (nodes & root & Hrun & Hall).
  destruct (emitted_spans_determined (document_of instant_leaf)
              (decoded_document_of instant_leaf_tree) _ _ _ _ eq_refl Hrun) as [Hnodes _].
  rewrite Hnodes in Hall. apply Forall2_cons_1 in Hall as [(Hleaf & _) _].
  destruct Hleaf as [Hstart Hend]; [reflexivity | intros c Hc; inversion Hc |].
  eexists nodes, root, _. split; [exact Hrun|].
  split; [exact Hnodes|]. split; [exact Hstart|]. rewrite Hend, Hstart. reflexivity.
Defined.

(** C5 as stated fails for a node with children: a sort that reports
    startup and total times of 5ms over a scan that starts at 2ms gets a span
    from 2ms to 5ms. *)
Lemma equal_times_counterexample :
  decode_PlanNode instant_node = Some instant_tree
  ∧ actualStartupTimeMs instant_tree = actualTotalTimeMs instant_tree
  ∧ ∃ child own s',
      parseChildPlan instant_node 0 [] [] counting_source = Ok ((2000000, [child; own]), s')
      ∧ span_start own = 2000000
      ∧ span_end own = 5000000
      ∧ span_end own ≠ span_start own + 1.
Proof.
  split; [reflexivity|]. split; [reflexivity|].
  eexists _, _, _. split; [vm_compute; reflexivity|].
  repeat split. discriminate.
Qed.

(** C6: a document with N plan nodes yields N+1 spans: one per plan node, in
    the post-order of the plan, then the synthesized root span, which is
    last; the span of a node stands at the node's post-order position, after
    the span of each of its descendants. *)
Theorem spans_in_post_order (message : json) (d : PlanDocument) (s : rand.Source) :
  decode_PlanDocument message = Some d →
  ∃ nodes root,
    parseExecutionPlan message s = Ok (nodes ++ [root], rand.skip (3 + size (plan d)) s)
    ∧ length (postorder (plan d)) = size (plan d)
    ∧ length nodes = size (plan d)
    ∧ length (nodes ++ [root]) = S (size (plan d))
    ∧ Forall2 (λ m sp, Name sp = nodeType m ∧ ParentSpanId sp ≠ [])
        (postorder (plan d)) nodes
    ∧ last (nodes ++ [root]) = Some root
    ∧ Name root = "CloudSQLQuery"
    ∧ ParentSpanId root = []
    ∧ (∀ p m,
         subnode (plan d) p = Some m →
         nodes !! post_index (plan d) p
         = Some (node_span (trace_start d) (trace_id_at s)
                   (path_parent_id (span_id_at s 2) (rand.skip 3 s) (plan d) p)
                   (span_id_at (rand.skip 3 s) (pre_index (plan d) p)) m))
    ∧ (∀ p q m,
         q ≠ [] → subnode (plan d) (p ++ q) = Some m →
         (post_index (plan d) (p ++ q) < post_index (plan d) p < length nodes)%nat).
Proof.
  intros Hd. eexists _, _. split; [now apply parseExecutionPlan_decoded|].
  split; [apply postorder_length|].
  split; [apply node_spans_length|].
  split; [rewrite length_app, node_spans_length; simpl; lia|].
  split.
  { eapply Forall2_impl; [apply node_spans_postorder|].
    intros m sp (parent & v & -> & Hparent). split; [reflexivity|]. simpl.
    destruct Hparent as [->|[w ->]]; discriminate. }
  split; [apply last_snoc|].
  split; [reflexivity|]. split; [reflexivity|]. split.
  - intros p m Hm. now apply node_span_at_path.
  - intros p q m Hq Hm. split; [now apply (post_index_descendant p q _ m)|].
    rewrite node_spans_length. rewrite subnode_app in Hm.
    destruct (subnode (plan d) p) as [a|] eqn:Ha; [|done].
    now apply (post_index_lt p _ a).
Qed.

Lemma spans_in_post_order_witness :
  ∃ nodes root,
    parseExecutionPlan (document_of scenario_node) counting_source
      = Ok (nodes ++ [root], rand.skip 5 counting_source)
    ∧ length (nodes ++ [root]) = 3%nat
    ∧ Forall2 (λ m sp, Name sp = nodeType m ∧ ParentSpanId sp ≠ [])
        (postorder scenario_tree) nodes
    ∧ last (nodes ++ [root]) = Some root
    ∧ (post_index scenario_tree [0%nat] < post_index scenario_tree [] < length nodes)%nat.
Proof.
  destruct (spans_in_post_order (document_of scenario_node)
              (decoded_document_of scenario_tree) counting_source eq_refl)
    as (nodes & root & Hrun & _ & _ & Hlen & Hnames & Hlast & _ & _ & _ & Horder).
  exists nodes, root. split; [exact Hrun|]. split; [exact Hlen|].
  split; [exact Hnames|]. split; [exact Hlast|].
  apply (Horder [] [0%nat] (mkPlanNode "Seq Scan" None None 2 3 7 [])); [discriminate|].
  reflexivity.
Defined.

(** ** Identifiers of a document *)

Lemma node_spans_Forall (Q : Span → Prop) T0 trace_id parent_span_id s (n : PlanNode) :
  (∀ parent v m,
     parent = parent_span_id ∨ (∃ w, parent = binary.LittleEndian_PutUint64 w) →
     Q (node_span T0 trace_id parent (binary.LittleEndian_PutUint64 v) m)) →
  Forall Q (node_spans T0 trace_id parent_span_id s n).
Proof.
  intros HQ.
  pose proof (node_spans_postorder T0 trace_id n parent_span_id s) as H.
  induction H as [|m sp ms sps (parent & v & -> & Hparent) _ IH]; constructor.
  - now apply HQ.
  - exact IH.
Qed.

Lemma document_span_ids (d : PlanDocument) (s : rand.Source) :
  SpanId <$> document_spans d s ≡ₚ span_id_at s <$> seq 2 (S (size (plan d))).
Proof.
  unfold document_spans. rewrite fmap_app, node_spans_ids, span_id_at_skip_seq.
  simpl. rewrite <- Permutation_cons_append. reflexivity.
Qed.

Lemma NoDup_span_ids (s : rand.Source) (l : list nat) :
  NoDup (span_id_at s <$> l) ↔ NoDup (rand.peek s <$> l).
Proof.
  unfold span_id_at.
  rewrite (list_fmap_compose (rand.peek s) binary.LittleEndian_PutUint64). split.
  - apply NoDup_fmap_1.
  - apply NoDup_fmap_2_strong. intros x y Hx Hy Heq.
    apply list_elem_of_fmap in Hx as (j & -> & _).
    apply list_elem_of_fmap in Hy as (k & -> & _).
    apply (f_equal binary.LittleEndian_Uint64) in Heq.
    now rewrite !LittleEndian_Uint64_PutUint64 in Heq by apply peek_range.
Qed.

(** C7, as the code has it: all spans of a document carry the same 16-byte
    trace identifier; every span identifier has 8 bytes, and the span
    identifiers of the document are pairwise distinct exactly when the
    values drawn for them from the random source are (the source promises no
    such thing). *)
Theorem trace_and_span_ids (message : json) (d : PlanDocument) (s : rand.Source) :
  decode_PlanDocument message = Some d →
  ∃ spans,
    parseExecutionPlan message s = Ok (spans, rand.skip (3 + size (plan d)) s)
    ∧ length spans = S (size (plan d))
    ∧ length (trace_id_at s) = 16%nat
    ∧ Forall (λ sp, TraceId sp = trace_id_at s) spans
    ∧ Forall (λ sp, length (SpanId sp) = 8%nat) spans
    ∧ SpanId <$> spans ≡ₚ span_id_at s <$> seq 2 (S (size (plan d)))
    ∧ (NoDup (SpanId <$> spans) ↔ NoDup (rand.peek s <$> seq 2 (S (size (plan d))))).
Proof.
  intros Hd. exists (document_spans d s).
  split; [now apply parseExecutionPlan_decoded|].
  split; [unfold document_spans; rewrite length_app, node_spans_length; simpl; lia|].
  split; [reflexivity|].
  split; [apply Forall_app; split;
          [apply node_spans_Forall; reflexivity | repeat constructor]|].
  split; [apply Forall_app; split;
          [apply node_spans_Forall; reflexivity | repeat constructor]|].
  split; [apply document_span_ids|].
  rewrite document_span_ids. apply NoDup_span_ids.
Qed.

Lemma trace_and_span_ids_witness :
  ∃ spans,
    parseExecutionPlan example_plan counting_source = Ok (spans, rand.skip 4 counting_source)
    ∧ Forall (λ sp, TraceId sp = trace_id_at counting_source) spans
    ∧ NoDup (SpanId <$> spans).
Proof.
  destruct (trace_and_span_ids example_plan example_document counting_source eq_refl)
    as (spans & Hrun & _ & _ & Htrace & _ & _ & Hdistinct).
  exists spans. split; [exact Hrun|]. split; [exact Htrace|].
  apply Hdistinct. apply (bool_decide_unpack _). vm_compute. exact I.
Defined.

(** C7 as stated fails: when the source hands out the same value twice, two
    spans of the document get the same span identifier. *)
Lemma span_ids_counterexample :
  ∃ node root s',
    parseExecutionPlan example_plan constant_source = Ok ([node; root], s')
    ∧ SpanId node = SpanId root
    ∧ ¬ NoDup (SpanId <$> [node; root]).
Proof.
  eexists _, _, _. split; [vm_compute; reflexivity|].
  split; [reflexivity|].
  intros H. apply NoDup_cons_1_1 in H. apply H. left.
Qed.

(** ** Attributes *)

Lemma node_attributes_lookup (m : PlanNode) (k : string) :
  node_attributes m !! k =
  if decide (k = "Rows Fetched") then Some (IntValue (float64.to_int64 (actualRows m)))
  else if decide (k = "Operation") then StringValue <$> operation m
  else if decide (k = "Table Name") then StringValue <$> relationName m
  else None.
Proof.
  unfold node_attributes.
  destruct (operation m) as [op|], (relationName m) as [rel|];
    repeat case_decide; simplify_map_eq; reflexivity.
Qed.

Lemma root_attributes_lookup (d : PlanDocument) (k : string) :
  root_attributes d !! k =
  if decide (k = "query") then Some (StringValue (queryText d))
  else if decide (k = "username") then Some (StringValue (username d))
  else if decide (k = "session_username") then Some (StringValue (sessionUsername d))
  else if decide (k = "connection_id")
       then Some (IntValue (float64.to_int64 (connectionId d)))
  else if decide (k = "database_name") then Some (StringValue (databaseName d))
  else None.
Proof.
  unfold root_attributes. repeat case_decide; simplify_map_eq; reflexivity.
Qed.

Lemma missing_rows_undecoded (m : list (string * json)) :
  obj_get m "Actual Rows" = JNull → decode_PlanNode (JObj m) = None.
Proof.
  intros Hnull. cbn [decode_PlanNode]. rewrite Hnull.
  destruct (decode_string (obj_get m "Node Type")); [|reflexivity].
  destruct (decode_float64 (obj_get m "Actual Startup Time")); [|reflexivity].
  cbn [mbind option_bind].
  destruct (obj_find m "Plans" (Some []) _); [|reflexivity].
  cbn [mbind option_bind].
  destruct (decode_float64 (obj_get m "Actual Total Time")); reflexivity.
Qed.

(** C8: the root span carries exactly the attributes [query], [username],
    [session_username] (strings), [connection_id] (integer) and
    [database_name] (string), read from the document, each of them required;
    a node span carries the integer [Rows Fetched], required, [Operation]
    exactly when the node has an operation name and [Table Name] exactly
    when it has a relation name, and nothing else; every attribute value is
    a string or an integer. *)
Theorem attributes_extracted (message : json) (s : rand.Source) :
  (∀ m k,
     message = JObj m →
     k ∈ ["Query Text"; "username"; "session_username"; "connection_id"; "database_name"] →
     obj_get m k = JNull →
     parseExecutionPlan message s = Panic TypeAssertion)
  ∧ (∀ m T0 trace_id parent_span_id,
       obj_get m "Actual Rows" = JNull →
       parseChildPlan (JObj m) T0 trace_id parent_span_id s = Panic TypeAssertion)
  ∧ (∀ d,
       decode_PlanDocument message = Some d →
       ∃ nodes root,
         parseExecutionPlan message s
           = Ok (nodes ++ [root], rand.skip (3 + size (plan d)) s)
         ∧ (∀ k, Attributes root !! k =
                 if decide (k = "query") then Some (StringValue (queryText d))
                 else if decide (k = "username") then Some (StringValue (username d))
                 else if decide (k = "session_username")
                      then Some (StringValue (sessionUsername d))
                 else if decide (k = "connection_id")
                      then Some (IntValue (float64.to_int64 (connectionId d)))
                 else if decide (k = "database_name")
                      then Some (StringValue (databaseName d))
                 else None)
         ∧ Forall2 (λ n sp,
              ∀ k, Attributes sp !! k =
                   if decide (k = "Rows Fetched")
                   then Some (IntValue (float64.to_int64 (actualRows n)))
                   else if decide (k = "Operation") then StringValue <$> operation n
                   else if decide (k = "Table Name") then StringValue <$> relationName n
                   else None)
             (postorder (plan d)) nodes
         ∧ Forall (λ sp,
              ∀ k v, Attributes sp !! k = Some v →
                     (∃ x, v = StringValue x) ∨ (∃ z, v = IntValue z))
             (nodes ++ [root])).
Proof.
  split; [|split].
  - intros m k -> Hk Hnull. apply parseExecutionPlan_undecoded.
    apply (missing_key_undecoded m k); [|exact Hnull].
    revert Hk. rewrite !elem_of_cons, !elem_of_nil. tauto.
  - intros m T0 trace_id parent_span_id Hnull.
    apply parseChildPlan_undecoded. now apply missing_rows_undecoded.
  - intros d Hd. eexists _, _. split; [now apply parseExecutionPlan_decoded|].
    split; [apply root_attributes_lookup|]. split.
    + eapply Forall2_impl; [apply node_spans_postorder|].
      intros n sp (parent & v & -> & _) key. apply node_attributes_lookup.
    + apply Forall_app. split.
      * apply node_spans_Forall. intros parent v n _ key a. simpl.
        rewrite node_attributes_lookup.
        repeat case_decide; intros Ha;
          [ injection Ha as <-; right; eauto
          | destruct (operation n); [injection Ha as <-; left; eauto | discriminate]
          | destruct (relationName n); [injection Ha as <-; left; eauto | discriminate]
          | discriminate ].
      * apply Forall_singleton. intros key a. simpl. rewrite root_attributes_lookup.
        repeat case_decide; intros Ha; try discriminate;
          injection Ha as <-; eauto.
Qed.

Lemma attributes_extracted_witness :
  ∃ node root,
    parseExecutionPlan example_plan counting_source
      = Ok ([node] ++ [root], rand.skip 4 counting_source)
    ∧ Name node = "Seq Scan"
    ∧ Attributes node !! "Table Name" = Some (StringValue "users")
    ∧ Attributes node !! "Rows Fetched" = Some (IntValue 100)
    ∧ Attributes node !! "Operation" = None
    ∧ Name root = "CloudSQLQuery"
    ∧ Attributes root !! "query" = Some (StringValue "SELECT 1")
    ∧ Attributes root !! "connection_id" = Some (IntValue 42)
    ∧ Attributes root !! "database_name" = Some (StringValue "app").
Proof.
  destruct (proj2 (proj2 (attributes_extracted example_plan counting_source))
              example_document eq_refl)
    as (nodes & root & Hrun & Hroot & Hnodes & _).
  destruct (emitted_spans_determined example_plan example_document _ _ _ _ eq_refl Hrun)
    as [Hn Hr].
  destruct (Forall2_cons_inv_l _ (plan example_document) [] nodes Hnodes)
    as (node & rest & Hnode & Hrest & ->).
  apply Forall2_nil_inv_l in Hrest as ->.
  exists node, root. split; [exact Hrun|].
  split; [now injection Hn as ->|].
  rewrite !Hnode, !Hroot. split; [reflexivity|]. split; [reflexivity|].
  split; [reflexivity|]. split; [now rewrite Hr|]. repeat split.
Defined.

(** C9: the root span has no parent identifier; every other span carries one
    parent identifier, of 8 bytes, which is the span identifier of a span of
    the same trace in the same batch: for the top plan node the root span,
    for any other node the span of the node one step up the plan tree. *)
Theorem parent_links (message : json) (d : PlanDocument) (s : rand.Source) :
  decode_PlanDocument message = Some d →
  ∃ nodes root,
    parseExecutionPlan message s = Ok (nodes ++ [root], rand.skip (3 + size (plan d)) s)
    ∧ ParentSpanId root = []
    ∧ Forall (λ sp,
         length (ParentSpanId sp) = 8%nat
         ∧ ∃ parent, parent ∈ nodes ++ [root]
                     ∧ SpanId parent = ParentSpanId sp
                     ∧ TraceId parent = TraceId sp)
        nodes
    ∧ (∃ top, nodes !! post_index (plan d) [] = Some top
              ∧ Name top = nodeType (plan d)
              ∧ ParentSpanId top = SpanId root)
    ∧ (∀ p i c,
         subnode (plan d) (p ++ [i]) = Some c →
         ∃ parent child,
           nodes !! post_index (plan d) p = Some parent
           ∧ nodes !! post_index (plan d) (p ++ [i]) = Some child
           ∧ Some (Name parent) = nodeType <$> subnode (plan d) p
           ∧ Name child = nodeType c
           ∧ ParentSpanId child = SpanId parent).
Proof.
  intros Hd. eexists _, _. split; [now apply parseExecutionPlan_decoded|].
  split; [reflexivity|]. split; [|split].
  - apply Forall_lookup. intros k sp Hk.
    pose proof (lookup_lt_Some _ _ _ Hk) as Hlt. rewrite node_spans_length in Hlt.
    destruct (post_index_onto (plan d) k Hlt) as (p & m & Hm & <-).
    rewrite (node_span_at_path _ _ p _ m) in Hk by exact Hm. injection Hk as <-.
    destruct (decide (p = [])) as [->|Hp].
    + split; [reflexivity|]. exists (root_span d s).
      split; [apply elem_of_app; right; left|]. split; reflexivity.
    + destruct (exists_last Hp) as (p' & i & ->).
      destruct (subnode_snoc _ _ _ _ Hm) as (m' & Hm' & _).
      rewrite path_parent_id_snoc. split; [reflexivity|].
      exists (node_span (trace_start d) (trace_id_at s)
                (path_parent_id (span_id_at s 2) (rand.skip 3 s) (plan d) p')
                (span_id_at (rand.skip 3 s) (pre_index (plan d) p')) m').
      split; [|split; reflexivity].
      apply elem_of_app. left.
      eapply list_elem_of_lookup_2, (node_span_at_path _ _ p' _ m'), Hm'.
  - eexists. split; [apply (node_span_at_path _ _ [] _ (plan d)); reflexivity|].
    split; reflexivity.
  - intros p i c Hc. destruct (subnode_snoc _ _ _ _ Hc) as (m & Hm & _).
    eexists _, _.
    split; [apply (node_span_at_path _ _ p _ m), Hm|].
    split; [apply (node_span_at_path _ _ (p ++ [i]) _ c), Hc|].
    split; [now rewrite Hm|]. split; [reflexivity|].
    simpl. apply path_parent_id_snoc.
Qed.

Lemma parent_links_witness :
  ∃ nodes root parent child,
    parseExecutionPlan (document_of scenario_node) counting_source
      = Ok (nodes ++ [root], rand.skip 5 counting_source)
    ∧ ParentSpanId root = []
    ∧ nodes !! 1%nat = Some parent
    ∧ nodes !! 0%nat = Some child
    ∧ Name parent = "Sort"
    ∧ Name child = "Seq Scan"
    ∧ ParentSpanId child = SpanId parent.
Proof.
  destruct (parent_links (document_of scenario_node)
              (decoded_document_of scenario_tree) counting_source eq_refl)
    as (nodes & root & Hrun & Hroot & _ & _ & Hpairs).
  destruct (Hpairs [] 0%nat (mkPlanNode "Seq Scan" None None 2 3 7 []) eq_refl)
    as (parent & child & Hparent & Hchild & Hpname & Hcname & Hlink).
  exists nodes, root, parent, child.
  split; [exact Hrun|]. split; [exact Hroot|]. split; [exact Hparent|].
  split; [exact Hchild|]. split; [now injection Hpname|].
  split; [exact Hcname | exact Hlink].
Defined.

(** ** The exporter wrapper *)

Section ExporterWrapperProperties.

Context {SpanData error : Type}.
Variable ProtoSpanToOCSpanData : Span → SpanData + error.
Variable CombineErrors : list error → option error.

Lemma foldl_push_span_goodSpans (spans : list Span) :
  ∀ st : push_state,
    goodSpans (foldl (push_span ProtoSpanToOCSpanData) st spans)
    = goodSpans st ++ translated ProtoSpanToOCSpanData spans.
Proof.
  induction spans as [|span spans IH]; intros st; simpl.
  - now rewrite app_nil_r.
  - rewrite IH. unfold push_span.
    destruct (ProtoSpanToOCSpanData span) as [sd|err]; simpl; [|reflexivity].
    now rewrite <- app_assoc.
Qed.

Lemma push_loop_goodSpans (spans : list Span) :
  goodSpans (push_loop ProtoSpanToOCSpanData spans)
  = translated ProtoSpanToOCSpanData spans.
Proof. apply foldl_push_span_goodSpans. Qed.

Lemma translated_nil_iff (spans : list Span) :
  translated ProtoSpanToOCSpanData spans = []
  ↔ Forall (λ span, ∃ err, ProtoSpanToOCSpanData span = inr err) spans.
Proof.
  induction spans as [|span spans IH]; [split; constructor|].
  rewrite Forall_cons. simpl.
  destruct (ProtoSpanToOCSpanData span) as [sd|err].
  - split; [discriminate|]. now intros [[? ?] _].
  - rewrite IH. split; [eauto|tauto].
Qed.

Lemma elem_of_translated (span : Span) (spans : list Span) :
  span ∈ translated ProtoSpanToOCSpanData spans →
  span ∈ spans ∧ ∃ sd, ProtoSpanToOCSpanData span = inl sd.
Proof.
  induction spans as [|x spans IH]; simpl; [intros H; inversion H|].
  destruct (ProtoSpanToOCSpanData x) as [sd|err] eqn:Hx.
  - intros [->|Hin]%elem_of_cons.
    + split; [left | eauto].
    + destruct (IH Hin) as [? ?]. split; [now right | assumption].
  - intros Hin. destruct (IH Hin) as [? ?]. split; [now right | assumption].
Qed.

(** C10: after the conversion loop the first element of [goodSpans] is read
    unconditionally. The call ends in an index panic exactly when no span of
    the batch translates, as for the empty batch and for a batch whose every
    span fails translation; whenever the call returns, some span of the
    batch translated. *)
Theorem first_good_span_indexed (td : TraceData) :
  goodSpans (push_loop ProtoSpanToOCSpanData (Spans td))
    = translated ProtoSpanToOCSpanData (Spans td)
  ∧ ((PushOcProtoSpansToOCTraceExporter ProtoSpanToOCSpanData CombineErrors td).2
       = Panic IndexOutOfRange
     ↔ Forall (λ span, ∃ err, ProtoSpanToOCSpanData span = inr err) (Spans td))
  ∧ (Spans td = [] →
     (PushOcProtoSpansToOCTraceExporter ProtoSpanToOCSpanData CombineErrors td).2
       = Panic IndexOutOfRange)
  ∧ (∀ r,
       (PushOcProtoSpansToOCTraceExporter ProtoSpanToOCSpanData CombineErrors td).2 = Ok r →
       ∃ span sd, span ∈ Spans td ∧ ProtoSpanToOCSpanData span = inl sd).
Proof.
  split; [apply push_loop_goodSpans|].
  assert ((PushOcProtoSpansToOCTraceExporter ProtoSpanToOCSpanData CombineErrors td).2
            = Panic IndexOutOfRange
          ↔ translated ProtoSpanToOCSpanData (Spans td) = []) as Hfault.
  { unfold PushOcProtoSpansToOCTraceExporter. rewrite push_loop_goodSpans.
    unfold trace_link, slice.
    destruct (translated ProtoSpanToOCSpanData (Spans td)) as [|first rest]; [done|].
    repeat case_decide; simpl; split; discriminate. }
  split; [now rewrite Hfault, translated_nil_iff|]. split.
  - intros Hnil. apply Hfault. now rewrite Hnil.
  - intros r Hr.
    destruct (translated ProtoSpanToOCSpanData (Spans td)) as [|first rest] eqn:Hgood.
    + rewrite (proj2 Hfault eq_refl) in Hr. discriminate Hr.
    + destruct (elem_of_translated first (Spans td)) as [Hin [sd Hsd]];
        [rewrite Hgood; left|].
      eauto.
Qed.

End ExporterWrapperProperties.

Lemma first_good_span_indexed_witness :
  (PushOcProtoSpansToOCTraceExporter (λ span : Span, inr "rejected" : Span + string)
     (λ errs : list string, head errs)
     {| HostName := "PostgreSQL"; Pid := 1; Spans := [] |}).2
  = Panic IndexOutOfRange.
Proof.
  apply (first_good_span_indexed (λ span : Span, inr "rejected" : Span + string)
           (λ errs : list string, head errs)
           {| HostName := "PostgreSQL"; Pid := 1; Spans := [] |}).
  reflexivity.
Defined.

(** * Further properties of the code *)

(** ** What the parsers read of an object *)

Lemma elem_of_literal (k : string) (l : list string) : In k l → k ∈ l.
Proof. apply list_elem_of_In. Qed.

Lemma decode_PlanNode_lookups (m m' : list (string * json)) :
  (∀ k, k ∈ node_keys → obj_get m k = obj_get m' k) →
  decode_PlanNode (JObj m) = decode_PlanNode (JObj m').
Proof.
  intros H. cbn [decode_PlanNode]. rewrite !obj_find_get by reflexivity.
  rewrite (H "Node Type"), (H "Actual Startup Time"), (H "Plans"),
    (H "Actual Total Time"), (H "Actual Rows"), (H "Operation"), (H "Relation Name")
    by (apply elem_of_literal; simpl; tauto).
  reflexivity.
Qed.

Lemma parseChildPlan_same_decoding (v v' : json) T0 trace_id parent_span_id s :
  decode_PlanNode v = decode_PlanNode v' →
  parseChildPlan v T0 trace_id parent_span_id s
  = parseChildPlan v' T0 trace_id parent_span_id s.
Proof.
  intros Heq.
  pose proof (proj1 (parse_agrees_all v)) as Hv.
  pose proof (proj1 (parse_agrees_all v')) as Hv'.
  unfold parse_agrees in Hv, Hv'. rewrite <- Heq in Hv'.
  destruct (decode_PlanNode v); now rewrite Hv, Hv'.
Qed.

(** X1: [parseChildPlan] depends on a plan object only through what the
    seven keys it reads are bound to: other keys, the order of the members
    and shadowed bindings do not matter. *)
Theorem parseChildPlan_reads_node_keys (m m' : list (string * json))
    (T0 : time.Time) (trace_id parent_span_id : list byte) (s : rand.Source) :
  (∀ k, k ∈ node_keys → obj_get m k = obj_get m' k) →
  parseChildPlan (JObj m) T0 trace_id parent_span_id s
  = parseChildPlan (JObj m') T0 trace_id parent_span_id s.
Proof.
  intros H. now apply parseChildPlan_same_decoding, decode_PlanNode_lookups.
Qed.

Lemma parseChildPlan_reads_node_keys_witness :
  parseChildPlan verbose_node 0 [] [] counting_source
  = parseChildPlan scenario_node 0 [] [] counting_source.
Proof.
  apply (parseChildPlan_reads_node_keys
           [("Plan Rows", JNum 12); ("Plans", JArr [scenario_child]);
            ("Actual Rows", JNum 7); ("Parent Relationship", JStr "Outer");
            ("Actual Total Time", JNum 10); ("Actual Startup Time", JNum 5);
            ("Node Type", JStr "Sort"); ("Node Type", JStr "Shadowed")]
           [("Node Type", JStr "Sort"); ("Actual Startup Time", JNum 5);
            ("Actual Total Time", JNum 10); ("Actual Rows", JNum 7);
            ("Plans", JArr [scenario_child])]).
  intros k Hk. unfold node_keys in Hk.
  repeat (apply elem_of_cons in Hk as [->|Hk]; [reflexivity|]).
  inversion Hk.
Defined.

(** X2: [parseExecutionPlan] depends on a document object only through what
    the eight keys it reads are bound to. *)
Theorem parseExecutionPlan_reads_document_keys (m m' : list (string * json))
    (s : rand.Source) :
  (∀ k, k ∈ document_keys → obj_get m k = obj_get m' k) →
  parseExecutionPlan (JObj m) s = parseExecutionPlan (JObj m') s.
Proof.
  intros H. rewrite !parseExecutionPlan_agrees. cbn [decode_PlanDocument].
  rewrite (H "start timestamp"), (H "duration"), (H "Query Text"), (H "username"),
    (H "session_username"), (H "connection_id"), (H "database_name"), (H "Plan")
    by (apply elem_of_literal; simpl; tauto).
  reflexivity.
Qed.

Lemma parseExecutionPlan_reads_document_keys_witness :
  parseExecutionPlan
    (JObj [("application_name", JStr "psql");
           ("Plan", scenario_node);
           ("database_name", JStr "app");
           ("connection_id", JNum 42);
           ("session_username", JStr "svc");
           ("username", JStr "svc");
           ("Query Text", JStr "SELECT 1");
           ("duration", JNum 0.05);
           ("start timestamp", JNum 1000.0)]) counting_source
  = parseExecutionPlan (document_of scenario_node) counting_source.
Proof.
  apply parseExecutionPlan_reads_document_keys.
  intros k Hk. unfold document_keys in Hk.
  repeat (apply elem_of_cons in Hk as [->|Hk]; [reflexivity|]).
  inversion Hk.
Defined.

(** ** Leaves *)

Lemma decode_PlanNode_leaf (m : list (string * json)) (n : PlanNode) :
  obj_get m "Plans" = JNull ∨ obj_get m "Plans" = JArr [] →
  decode_PlanNode (JObj m) = Some n →
  children n = [].
Proof.
  intros Hplans Hn. pose proof (decode_PlanNode_children _ _ Hn) as Hc.
  cbn [plans_of] in Hc.
  destruct Hplans as [Hp|Hp]; rewrite Hp in Hc; now apply Forall2_nil_inv_l in Hc.
Qed.

(** X3: a plan object whose ["Plans"] is absent, null or the empty list is
    converted as a leaf, the same in the three cases: when the conversion
    returns, it has drawn one identifier and returns the node's own span
    alone, starting at the candidate start [T0 + Actual Startup Time]. *)
Theorem leaf_plans (m m' : list (string * json))
    (T0 : time.Time) (trace_id parent_span_id : list byte) (s : rand.Source) :
  (∀ k, k ∈ node_keys → k ≠ "Plans" → obj_get m k = obj_get m' k) →
  obj_get m "Plans" = JNull ∨ obj_get m "Plans" = JArr [] →
  obj_get m' "Plans" = JNull ∨ obj_get m' "Plans" = JArr [] →
  parseChildPlan (JObj m) T0 trace_id parent_span_id s
  = parseChildPlan (JObj m') T0 trace_id parent_span_id s
  ∧ (parseChildPlan (JObj m) T0 trace_id parent_span_id s = Panic TypeAssertion
     ∨ ∃ start_offset_ms own,
         obj_get m "Actual Startup Time" = JNum start_offset_ms
         ∧ parseChildPlan (JObj m) T0 trace_id parent_span_id s
           = Ok ((T0 + ms_to_Duration start_offset_ms, [own]), rand.skip 1 s)
         ∧ span_start own = T0 + ms_to_Duration start_offset_ms
         ∧ SpanId own = span_id_at s 0
         ∧ ParentSpanId own = parent_span_id).
Proof.
  intros H Hp Hp'. split.
  - apply parseChildPlan_same_decoding. cbn [decode_PlanNode].
    rewrite !obj_find_get by reflexivity.
    rewrite (H "Node Type"), (H "Actual Startup Time"),
      (H "Actual Total Time"), (H "Actual Rows"), (H "Operation"), (H "Relation Name")
      by (try discriminate; apply elem_of_literal; simpl; tauto).
    destruct Hp as [->| ->], Hp' as [->| ->]; reflexivity.
  - destruct (decode_PlanNode (JObj m)) as [n|] eqn:Hn.
    + right. pose proof (decode_PlanNode_leaf m n Hp Hn) as Hleaf.
      assert (obj_get m "Actual Startup Time" = JNum (actualStartupTimeMs n)) as Hst.
      { revert Hn. cbn [decode_PlanNode].
        destruct (decode_string (obj_get m "Node Type")); [|done].
        destruct (obj_get m "Actual Startup Time"); try done.
        cbn [mbind option_bind decode_float64]. intros Hn. simplify_option_eq.
        reflexivity. }
      exists (actualStartupTimeMs n),
        (node_span T0 trace_id parent_span_id (span_id_at s 0) n).
      split; [exact Hst|].
      rewrite (parseChildPlan_decoded _ n) by exact Hn.
      rewrite node_spans_unfold, size_unfold, (final_start_unfold T0 n), Hleaf.
      rewrite node_span_start, (final_start_unfold T0 n), Hleaf.
      repeat split.
    + left. now apply parseChildPlan_undecoded.
Qed.

Lemma leaf_plans_witness :
  parseChildPlan (JObj [("Node Type", JStr "Seq Scan");
                        ("Actual Startup Time", JNum 2);
                        ("Actual Total Time", JNum 3);
                        ("Actual Rows", JNum 7);
                        ("Plans", JArr [])]) 0 [] [] counting_source
  = parseChildPlan scenario_child 0 [] [] counting_source.
Proof.
  apply (leaf_plans
           [("Node Type", JStr "Seq Scan"); ("Actual Startup Time", JNum 2);
            ("Actual Total Time", JNum 3); ("Actual Rows", JNum 7);
            ("Plans", JArr [])]
           [("Node Type", JStr "Seq Scan"); ("Actual Startup Time", JNum 2);
            ("Actual Total Time", JNum 3); ("Actual Rows", JNum 7)]).
  - intros k Hk Hne. unfold node_keys in Hk.
    repeat (apply elem_of_cons in Hk as [->|Hk]; [try reflexivity; done|]).
    inversion Hk.
  - right. reflexivity.
  - left. reflexivity.
Defined.

(** ** How the parsers end *)

(** X4: [parseExecutionPlan] ends in one of two ways, whatever the message:
    a type-assertion panic, or a non-empty batch whose last span is the root
    span ["CloudSQLQuery"] with no parent, all of one trace identifier, with
    two values drawn for the trace identifier and one per span. *)
Theorem parseExecutionPlan_outcomes (message : json) (s : rand.Source) :
  parseExecutionPlan message s = Panic TypeAssertion
  ∨ ∃ nodes root,
      parseExecutionPlan message s
        = Ok (nodes ++ [root], rand.skip (2 + length (nodes ++ [root])) s)
      ∧ Name root = "CloudSQLQuery"
      ∧ ParentSpanId root = []
      ∧ SpanId root = span_id_at s 2
      ∧ Forall (λ sp, TraceId sp = trace_id_at s) (nodes ++ [root]).
Proof.
  rewrite parseExecutionPlan_agrees.
  destruct (decode_PlanDocument message) as [d|]; [right | now left].
  eexists _, _. unfold document_spans. split.
  - rewrite length_app, node_spans_length. simpl.
    do 2 f_equal. f_equal. lia.
  - repeat split. apply Forall_app. split.
    + apply node_spans_Forall. reflexivity.
    + now apply Forall_singleton.
Qed.

(** X5: [parseChildPlan] ends in a type-assertion panic or returns the spans
    of the subtree followed by the node's own span, which carries the first
    identifier drawn and the parent identifier it was given and starts at the
    returned time; the spans all carry the given trace identifier, and one
    value is drawn per span. *)
Theorem parseChildPlan_outcomes (v : json)
    (T0 : time.Time) (trace_id parent_span_id : list byte) (s : rand.Source) :
  parseChildPlan v T0 trace_id parent_span_id s = Panic TypeAssertion
  ∨ ∃ start nodes own,
      parseChildPlan v T0 trace_id parent_span_id s
        = Ok ((start, nodes ++ [own]), rand.skip (length (nodes ++ [own])) s)
      ∧ SpanId own = span_id_at s 0
      ∧ ParentSpanId own = parent_span_id
      ∧ span_start own = start
      ∧ Forall (λ sp, TraceId sp = trace_id) (nodes ++ [own]).
Proof.
  destruct (decode_PlanNode v) as [n|] eqn:Hn.
  - right. rewrite (parseChildPlan_decoded v n) by exact Hn.
    pose proof (node_spans_length T0 trace_id n parent_span_id s) as Hlen.
    pose proof (node_spans_Forall (λ sp, TraceId sp = trace_id)
                  T0 trace_id parent_span_id s n (λ _ _ _ _, eq_refl)) as Hall.
    rewrite node_spans_unfold in Hlen, Hall |- *.
    eexists _, _, _. split; [now rewrite Hlen|].
    split; [reflexivity|]. split; [reflexivity|].
    split; [apply node_span_start | exact Hall].
  - left. now apply parseChildPlan_undecoded.
Qed.

(** ** The rows of a tick *)

(** X6: rows that fail to scan or to unmarshal are skipped without a trace:
    a tick ends as it would on the messages of its other rows alone. *)
Theorem unreadable_rows_skipped (pid : Z) (rows : list row)
    (sink : list TraceData) (s : rand.Source) :
  ProcessExecutionPlan pid (Some rows) sink s
  = ProcessExecutionPlan pid (Some (Unmarshalled <$> documents rows)) sink s.
Proof.
  unfold ProcessExecutionPlan. revert sink s.
  induction rows as [|[| |message] rows IH]; intros sink s; simpl;
    try apply IH; [reflexivity|].
  destruct (parseExecutionPlan message s) as [[spans s']|p]; [apply IH | reflexivity].
Qed.


(** ** Start times over a subtree *)

Lemma final_start_le_subtree T0 (n : PlanNode) :
  ∀ m, m ∈ postorder n → final_start T0 n <= final_start T0 m.
Proof.
  induction n as [ty op rel st tot rows cs IH] using PlanNode_nested_ind.
  intros m Hm. rewrite postorder_unfold in Hm. cbn [children] in Hm.
  apply elem_of_app in Hm as [Hm|Hm].
  - apply list_elem_of_join in Hm as (l & Hm & Hl).
    apply list_elem_of_fmap in Hl as (c & -> & Hc).
    rewrite Forall_forall in IH. specialize (IH c Hc m Hm).
    pose proof (final_start_le_child T0 (mkPlanNode ty op rel st tot rows cs) c Hc).
    lia.
  - apply list_elem_of_singleton in Hm as ->. lia.
Qed.

Lemma final_start_attained T0 (n : PlanNode) :
  ∃ m, m ∈ postorder n ∧ final_start T0 n = candidate_start T0 m.
Proof.
  induction n as [ty op rel st tot rows cs IH] using PlanNode_nested_ind.
  rewrite final_start_unfold. cbn [children].
  destruct (foldr_min_attained
              (candidate_start T0 (mkPlanNode ty op rel st tot rows cs))
              (final_start T0 <$> cs)) as [Hown|Hchild].
  - eexists. split; [apply postorder_self | exact Hown].
  - apply list_elem_of_fmap in Hchild as (c & Hc & Hin).
    rewrite Forall_forall in IH. destruct (IH c Hin) as (m & Hm & Heq).
    exists m. split; [|now rewrite Hc].
    now apply (postorder_child (mkPlanNode ty op rel st tot rows cs) c).
Qed.

(** X8: the time [parseChildPlan] returns, at which the node's own span
    starts, is the earliest candidate start [T0 + Actual Startup Time] among
    the nodes of the subtree, and no span returned for the subtree starts
    before it. *)
Theorem subtree_start_is_earliest (v : json) (n : PlanNode)
    (T0 : time.Time) (trace_id parent_span_id : list byte) (s : rand.Source) :
  decode_PlanNode v = Some n →
  ∃ start nodes own,
    parseChildPlan v T0 trace_id parent_span_id s
      = Ok ((start, nodes ++ [own]), rand.skip (size n) s)
    ∧ span_start own = start
    ∧ (∀ m, m ∈ postorder n → start <= T0 + ms_to_Duration (actualStartupTimeMs m))
    ∧ (∃ m, m ∈ postorder n ∧ start = T0 + ms_to_Duration (actualStartupTimeMs m))
    ∧ Forall (λ sp, start <= span_start sp) (nodes ++ [own]).
Proof.
  intros Hn. rewrite (parseChildPlan_decoded v n) by exact Hn.
  pose proof (node_spans_postorder T0 trace_id n parent_span_id s) as Hall.
  rewrite node_spans_unfold in Hall |- *.
  eexists _, _, _. split; [reflexivity|].
  split; [apply node_span_start|]. split; [|split].
  - intros m Hm. pose proof (final_start_le_subtree T0 n m Hm).
    pose proof (final_start_le_candidate T0 m). unfold candidate_start in *. lia.
  - apply final_start_attained.
  - apply Forall_lookup. intros k sp Hk.
    destruct (Forall2_lookup_r _ _ _ _ _ Hall Hk) as (m & Hm & parent & w & -> & _).
    rewrite node_span_start. apply final_start_le_subtree.
    eapply list_elem_of_lookup_2, Hm.
Qed.

Lemma subtree_start_is_earliest_witness :
  ∃ nodes own,
    parseChildPlan scenario_node 0 [] [] counting_source
      = Ok ((2000000, nodes ++ [own]), rand.skip 2 counting_source)
    ∧ span_start own = 2000000
    ∧ Forall (λ sp, 2000000 <= span_start sp) (nodes ++ [own]).
Proof.
  destruct (subtree_start_is_earliest scenario_node scenario_tree 0 [] [] counting_source
              eq_refl) as (start & nodes & own & Hrun & Hown & _ & _ & Hall).
  assert (start = 2000000) as ->.
  { apply (f_equal (λ r, match r with Ok ((t, _), _) => t | Panic _ => 0 end)) in Hrun.
    symmetry. exact Hrun. }
  exists nodes, own. split; [exact Hrun|]. split; [exact Hown | exact Hall].
Defined.

(** ** Spans apart from their identifiers *)

Lemma node_spans_payload T0 trace_id (n : PlanNode) parent_span_id s :
  payload <$> node_spans T0 trace_id parent_span_id s n
  = (λ m, payload (node_span T0 [] [] [] m)) <$> postorder n.
Proof.
  pose proof (node_spans_postorder T0 trace_id n parent_span_id s) as H.
  induction H as [|m sp ms sps (parent & v & -> & _) _ IH]; [reflexivity|].
  rewrite !fmap_cons, IH. reflexivity.
Qed.

(** X9: the random source decides the identifiers of a batch and nothing
    else: from any two states of the source [parseExecutionPlan] ends the
    same way on a message, and when it returns, the two batches agree span
    by span on name, start, end and attributes. *)
Theorem payload_independent_of_source (message : json) (s1 s2 : rand.Source) :
  match parseExecutionPlan message s1, parseExecutionPlan message s2 with
  | Ok (spans1, _), Ok (spans2, _) => payload <$> spans1 = payload <$> spans2
  | Panic p1, Panic p2 => p1 = p2
  | _, _ => False
  end.
Proof.
  rewrite !parseExecutionPlan_agrees.
  destruct (decode_PlanDocument message) as [d|]; [|reflexivity].
  unfold document_spans. rewrite !fmap_app, !node_spans_payload. reflexivity.
Qed.

(** ** What the exporter wrapper exports *)

Section ExporterWrapperEffects.

Context {SpanData error : Type}.
Variable ProtoSpanToOCSpanData : Span → SpanData + error.
Variable CombineErrors : list error → option error.

Lemma foldl_push_span_state (spans : list Span) :
  ∀ st : push_state,
    exported (foldl (push_span ProtoSpanToOCSpanData) st spans)
    = exported st ++ translations ProtoSpanToOCSpanData spans
    ∧ errs (foldl (push_span ProtoSpanToOCSpanData) st spans)
      = errs st ++ failures ProtoSpanToOCSpanData spans.
Proof.
  induction spans as [|span spans IH]; intros st; simpl.
  - now rewrite !app_nil_r.
  - destruct (IH (push_span ProtoSpanToOCSpanData st span)) as [-> ->].
    unfold push_span.
    destruct (ProtoSpanToOCSpanData span) as [sd|err]; simpl;
      now rewrite <- ?app_assoc.
Qed.

Lemma translations_failures_length (spans : list Span) :
  (length (translations ProtoSpanToOCSpanData spans)
   + length (failures ProtoSpanToOCSpanData spans) = length spans)%nat
  ∧ length (translations ProtoSpanToOCSpanData spans)
    = length (translated ProtoSpanToOCSpanData spans).
Proof.
  induction spans as [|span spans [IH1 IH2]]; [done|]. simpl.
  destruct (ProtoSpanToOCSpanData span); simpl; lia.
Qed.

(** X10: every span of the batch is either exported or its error kept: the
    exporter receives the translations of the spans that translate, in the
    order of the batch, whether the call then returns or panics; when it
    returns, it returns the combination of the errors of the other spans, in
    order. *)
Theorem push_exports_in_order (td : TraceData) :
  (PushOcProtoSpansToOCTraceExporter ProtoSpanToOCSpanData CombineErrors td).1
    = translations ProtoSpanToOCSpanData (Spans td)
  ∧ (length (translations ProtoSpanToOCSpanData (Spans td))
     + length (failures ProtoSpanToOCSpanData (Spans td)) = length (Spans td))%nat
  ∧ length (translations ProtoSpanToOCSpanData (Spans td))
    = length (goodSpans (push_loop ProtoSpanToOCSpanData (Spans td)))
  ∧ (∀ r,
       (PushOcProtoSpansToOCTraceExporter ProtoSpanToOCSpanData CombineErrors td).2 = Ok r →
       r = CombineErrors (failures ProtoSpanToOCSpanData (Spans td))).
Proof.
  destruct (foldl_push_span_state (Spans td)
              {| exported := []; goodSpans := []; errs := [] |}) as [Hexp Herr].
  simpl in Hexp, Herr. fold (push_loop ProtoSpanToOCSpanData (Spans td)) in Hexp, Herr.
  destruct (translations_failures_length (Spans td)) as [Hsum Hgood].
  split; [|split; [exact Hsum|split]].
  - unfold PushOcProtoSpansToOCTraceExporter.
    destruct (trace_link _); exact Hexp.
  - now rewrite push_loop_goodSpans.
  - unfold PushOcProtoSpansToOCTraceExporter. intros r.
    destruct (trace_link _); simpl; [|discriminate].
    intros Hr. injection Hr as <-. now rewrite Herr.
Qed.

(** On a batch whose spans all have trace identifiers of at least 16 bytes
    the slices of the first good span's trace identifier are in bounds. *)
Lemma push_with_full_trace_ids (td : TraceData) :
  Forall (λ sp, (16 ≤ length (TraceId sp))%nat) (Spans td) →
  (PushOcProtoSpansToOCTraceExporter ProtoSpanToOCSpanData CombineErrors td).2
  = match translated ProtoSpanToOCSpanData (Spans td) with
    | [] => Panic IndexOutOfRange
    | _ :: _ => Ok (CombineErrors (failures ProtoSpanToOCSpanData (Spans td)))
    end.
Proof.
  intros Hids.
  destruct (foldl_push_span_state (Spans td)
              {| exported := []; goodSpans := []; errs := [] |}) as [_ Herr].
  simpl in Herr. fold (push_loop ProtoSpanToOCSpanData (Spans td)) in Herr.
  unfold PushOcProtoSpansToOCTraceExporter. rewrite push_loop_goodSpans.
  destruct (translated ProtoSpanToOCSpanData (Spans td)) as [|first rest] eqn:Hgood;
    [reflexivity|].
  assert (16 ≤ length (TraceId first))%nat as Hlen.
  { rewrite Forall_forall in Hids. apply Hids.
    apply (elem_of_translated ProtoSpanToOCSpanData first (Spans td)).
    rewrite Hgood. left. }
  unfold trace_link, slice.
  rewrite !decide_True by lia. simpl. now rewrite Herr.
Qed.

End ExporterWrapperEffects.

(** ** Plan batches through the exporter wrapper *)

Section PlanBatches.

Context {SpanData error : Type}.
Variable ProtoSpanToOCSpanData : Span → SpanData + error.
Variable CombineErrors : list error → option error.

(** X11: pushing a batch that [parseExecutionPlan] returned never fails on
    the slices of the trace identifier: the call panics on the index when no
    span of the batch translates, and otherwise returns the combined errors
    of the spans that do not. *)
Theorem plan_batch_pushed (message : json) (s s' : rand.Source) (spans : list Span)
    (pid : Z) :
  parseExecutionPlan message s = Ok (spans, s') →
  (PushOcProtoSpansToOCTraceExporter ProtoSpanToOCSpanData CombineErrors
     {| HostName := "PostgreSQL"; Pid := pid; Spans := spans |}).2
  = match translated ProtoSpanToOCSpanData spans with
    | [] => Panic IndexOutOfRange
    | _ :: _ => Ok (CombineErrors (failures ProtoSpanToOCSpanData spans))
    end.
Proof.
  intros Hrun. apply push_with_full_trace_ids. simpl.
  rewrite parseExecutionPlan_agrees in Hrun.
  destruct (decode_PlanDocument message) as [d|]; [|discriminate Hrun].
  injection Hrun as <- _. unfold document_spans. apply Forall_app. split.
  - apply node_spans_Forall. reflexivity.
  - now apply Forall_singleton.
Qed.

End PlanBatches.

Lemma plan_batch_pushed_witness :
  ∃ spans s',
    parseExecutionPlan example_plan counting_source = Ok (spans, s')
    ∧ (PushOcProtoSpansToOCTraceExporter
         (λ span : Span, if String.eqb (Name span) "CloudSQLQuery"
                         then inl span else inr "dropped" : Span + string)
         (λ errs : list string, head errs)
         {| HostName := "PostgreSQL"; Pid := 1; Spans := spans |}).2
      = Ok (Some "dropped").
Proof.
  eexists _, _. split; [vm_compute; reflexivity|].
  rewrite (plan_batch_pushed
             (λ span : Span, if String.eqb (Name span) "CloudSQLQuery"
                             then inl span else inr "dropped" : Span + string)
             (λ errs : list string, head errs) example_plan counting_source
             (rand.skip 4 counting_source) _ 1).
  - reflexivity.
  - vm_compute. reflexivity.
Defined.

(** ** Identifiers and the values drawn *)

(** X12: the generators never panic; a span identifier is the 8-byte
    little-endian encoding of one drawn value and decodes back to it, a trace
    identifier is 16 bytes whose halves decode back to two consecutive drawn
    values; two span identifiers are equal exactly when the values drawn for
    them are. *)
Theorem identifiers_encode_draws (s : rand.Source) :
  (∃ span_id,
     generateSpanId s = Ok (span_id, rand.skip 1 s)
     ∧ length span_id = 8%nat
     ∧ binary.LittleEndian_Uint64 span_id = rand.peek s 0)
  ∧ (∃ trace_id,
       generateTraceId s = Ok (trace_id, rand.skip 2 s)
       ∧ length trace_id = 16%nat
       ∧ binary.LittleEndian_Uint64 (take 8 trace_id) = rand.peek s 0
       ∧ binary.LittleEndian_Uint64 (drop 8 trace_id) = rand.peek s 1)
  ∧ (∀ t : rand.Source,
       (∃ span_id t' s', generateSpanId t = Ok (span_id, t')
                         ∧ generateSpanId s = Ok (span_id, s'))
       ↔ rand.peek t 0 = rand.peek s 0).
Proof.
  split; [|split].
  - eexists. split; [apply generateSpanId_eq|]. split; [reflexivity|].
    apply LittleEndian_Uint64_PutUint64, peek_range.
  - eexists. split; [apply generateTraceId_eq|]. split; [reflexivity|].
    unfold trace_id_at.
    rewrite take_app_length' by reflexivity. rewrite drop_app_length' by reflexivity.
    split; apply LittleEndian_Uint64_PutUint64, peek_range.
  - intros t. rewrite !generateSpanId_eq. split.
    + intros (span_id & t' & s' & Ht & Hs).
      assert (span_id_at t 0 = span_id_at s 0) as Heq by congruence.
      apply (f_equal binary.LittleEndian_Uint64) in Heq. unfold span_id_at in Heq.
      now rewrite !LittleEndian_Uint64_PutUint64 in Heq by apply peek_range.
    + intros Heq. exists (span_id_at s 0), (rand.skip 1 t), (rand.skip 1 s).
      unfold span_id_at. now rewrite Heq.
Qed.

(** ** Consecutive documents *)

Lemma peek_inj_below (s : rand.Source) (N i j : nat) :
  NoDup (rand.peek s <$> seq 0 N) → (i < N)%nat → (j < N)%nat →
  rand.peek s i = rand.peek s j → i = j.
Proof.
  intros Hnd Hi Hj Heq.
  apply (NoDup_lookup _ i j (rand.peek s i) Hnd).
  - now rewrite list_lookup_fmap, lookup_seq_lt.
  - now rewrite list_lookup_fmap, lookup_seq_lt, Heq.
Qed.

Lemma NoDup_peek_below (s : rand.Source) (N : nat) (l : list nat) :
  NoDup (rand.peek s <$> seq 0 N) → NoDup l → (∀ i, i ∈ l → (i < N)%nat) →
  NoDup (rand.peek s <$> l).
Proof.
  intros Hnd Hl Hlt. apply NoDup_fmap_2_strong; [|exact Hl].
  intros i j Hi Hj. apply (peek_inj_below s N); auto.
Qed.

(** X13: two documents converted one after the other draw from separate
    stretches of the random source: when the values the source hands out
    over the two conversions are pairwise distinct, the span identifiers of
    the two batches together are pairwise distinct, and no span of the first
    batch has the trace identifier of a span of the second. *)
Theorem consecutive_documents_apart (message1 message2 : json)
    (s s1 s2 : rand.Source) (spans1 spans2 : list Span) :
  parseExecutionPlan message1 s = Ok (spans1, s1) →
  parseExecutionPlan message2 s1 = Ok (spans2, s2) →
  NoDup (rand.peek s <$> seq 0 (4 + length spans1 + length spans2)) →
  s2 = rand.skip (4 + length spans1 + length spans2) s
  ∧ NoDup (SpanId <$> (spans1 ++ spans2))
  ∧ Forall (λ sp1, Forall (λ sp2, TraceId sp1 ≠ TraceId sp2) spans2) spans1.
Proof.
  rewrite !parseExecutionPlan_agrees.
  destruct (decode_PlanDocument message1) as [d1|]; [|discriminate].
  destruct (decode_PlanDocument message2) as [d2|]; [|discriminate].
  intros H1 H2. injection H1 as <- <-. injection H2 as <- <-.
  assert (length (document_spans d1 s) = S (size (plan d1))) as Hl1
    by (unfold document_spans; rewrite length_app, node_spans_length; simpl; lia).
  assert (∀ t, length (document_spans d2 t) = S (size (plan d2))) as Hl2
    by (intros t; unfold document_spans; rewrite length_app, node_spans_length;
        simpl; lia).
  rewrite Hl1, Hl2. intros Hnd. split; [|split].
  - rewrite skip_skip. f_equal. lia.
  - rewrite fmap_app, !document_span_ids, span_id_at_skip_seq, <- fmap_app.
    apply NoDup_span_ids.
    apply (NoDup_peek_below s _ _ Hnd).
    + apply NoDup_app. split; [apply NoDup_seq|]. split; [|apply NoDup_seq].
      intros i Hi Hi'. apply elem_of_seq in Hi, Hi'. lia.
    + intros i [Hi|Hi]%elem_of_app; apply elem_of_seq in Hi; lia.
  - assert (trace_id_at s ≠ trace_id_at (rand.skip (3 + size (plan d1)) s)) as Hne.
    { unfold trace_id_at. intros Heq. apply app_inj_1 in Heq as [Heq _]; [|reflexivity].
      apply (f_equal binary.LittleEndian_Uint64) in Heq.
      rewrite !LittleEndian_Uint64_PutUint64 in Heq by apply peek_range.
      rewrite peek_skip in Heq.
      apply (peek_inj_below s _ _ _ Hnd) in Heq; lia. }
    assert (∀ d t, Forall (λ sp, TraceId sp = trace_id_at t) (document_spans d t)) as Hall.
    { intros d t. unfold document_spans. apply Forall_app. split.
      - apply node_spans_Forall. reflexivity.
      - now apply Forall_singleton. }
    eapply Forall_impl; [apply (Hall d1 s)|]. intros sp1 Hsp1.
    eapply Forall_impl; [apply (Hall d2)|]. intros sp2 Hsp2.
    rewrite Hsp1, Hsp2. exact Hne.
Qed.

Lemma consecutive_documents_apart_witness :
  ∃ spans1 spans2 s1 s2,
    parseExecutionPlan example_plan counting_source = Ok (spans1, s1)
    ∧ parseExecutionPlan (document_of scenario_node) s1 = Ok (spans2, s2)
    ∧ NoDup (SpanId <$> (spans1 ++ spans2)).
Proof.
  eexists _, _, _, _. split; [vm_compute; reflexivity|].
  split; [vm_compute; reflexivity|].
  eapply (consecutive_documents_apart example_plan (document_of scenario_node)
            counting_source).
  - vm_compute. reflexivity.
  - vm_compute. reflexivity.
  - apply (bool_decide_unpack _). vm_compute. exact I.
Defined.

(** ** Ill-typed optional fields and malformed children *)

Lemma decode_all_None {A : Type} (decode : json → option A) (l : list json) (c : json) :
  c ∈ l → decode c = None → decode_all decode l = None.
Proof.
  intros Hc Hnone. induction Hc as [c l|c x l _ IH]; simpl.
  - rewrite Hnone. reflexivity.
  - rewrite (IH Hnone). destruct (decode x); reflexivity.
Qed.

(** X14: the optional fields are optional only by absence or null: a plan
    object whose ["Operation"] or ["Relation Name"] holds a value that is
    neither null nor a string, or whose ["Plans"] holds a value that is
    neither null nor a list, makes [parseChildPlan] panic on the type
    assertion. *)
Theorem ill_typed_optional_field (m : list (string * json))
    (T0 : time.Time) (trace_id parent_span_id : list byte) (s : rand.Source) :
  match obj_get m "Operation" with JNull | JStr _ => False | _ => True end
  ∨ match obj_get m "Relation Name" with JNull | JStr _ => False | _ => True end
  ∨ match obj_get m "Plans" with JNull | JArr _ => False | _ => True end →
  parseChildPlan (JObj m) T0 trace_id parent_span_id s = Panic TypeAssertion.
Proof.
  intros Hbad. apply parseChildPlan_undecoded. cbn [decode_PlanNode].
  rewrite obj_find_get by reflexivity.
  destruct (decode_string (obj_get m "Node Type")); [|reflexivity].
  destruct (decode_float64 (obj_get m "Actual Startup Time")); [|reflexivity].
  cbn [mbind option_bind].
  destruct (obj_get m "Plans") as [| | | |l|] eqn:Hplans;
    try reflexivity; cbn [mbind option_bind].
  - destruct (decode_float64 (obj_get m "Actual Total Time")); [|reflexivity].
    destruct (decode_float64 (obj_get m "Actual Rows")); [|reflexivity].
    cbn [mbind option_bind].
    destruct Hbad as [Hbad|[Hbad|[]]].
    + destruct (obj_get m "Operation"); done.
    + destruct (obj_get m "Operation"); try reflexivity;
        cbn [decode_optional mbind option_bind];
        destruct (obj_get m "Relation Name"); done.
  - destruct (decode_all decode_PlanNode l); [|reflexivity].
    cbn [mbind option_bind].
    destruct (decode_float64 (obj_get m "Actual Total Time")); [|reflexivity].
    destruct (decode_float64 (obj_get m "Actual Rows")); [|reflexivity].
    cbn [mbind option_bind].
    destruct Hbad as [Hbad|[Hbad|[]]].
    + destruct (obj_get m "Operation"); done.
    + destruct (obj_get m "Operation"); try reflexivity;
        cbn [decode_optional mbind option_bind];
        destruct (obj_get m "Relation Name"); done.
Qed.

Lemma ill_typed_optional_field_witness :
  parseChildPlan (JObj [("Node Type", JStr "Seq Scan");
                        ("Operation", JNum 3);
                        ("Actual Startup Time", JNum 2);
                        ("Actual Total Time", JNum 3);
                        ("Actual Rows", JNum 7)]) 0 [] [] counting_source
  = Panic TypeAssertion.
Proof.
  apply ill_typed_optional_field. left. exact I.
Defined.

(** X15: one malformed node aborts the conversion of the plan above it: when
    the conversion of a child plan panics, so does the conversion of the
    plan object that lists it, wherever the child stands in the list. *)
Theorem malformed_child_aborts (v c : json) (p : panic)
    (T0 T0' : time.Time) (trace_id trace_id' parent_span_id parent_span_id' : list byte)
    (s s' : rand.Source) :
  c ∈ plans_of v →
  parseChildPlan c T0' trace_id' parent_span_id' s' = Panic p →
  parseChildPlan v T0 trace_id parent_span_id s = Panic TypeAssertion.
Proof.
  intros Hc Hpanic.
  assert (decode_PlanNode c = None) as Hnone.
  { destruct (decode_PlanNode c) as [n|] eqn:Hn; [|reflexivity].
    rewrite (parseChildPlan_decoded c n) in Hpanic by exact Hn. discriminate Hpanic. }
  apply parseChildPlan_undecoded.
  destruct v as [| | | | |m]; try reflexivity.
  cbn [plans_of] in Hc. cbn [decode_PlanNode]. rewrite obj_find_get by reflexivity.
  destruct (decode_string (obj_get m "Node Type")); [|reflexivity].
  destruct (decode_float64 (obj_get m "Actual Startup Time")); [|reflexivity].
  cbn [mbind option_bind].
  destruct (obj_get m "Plans") as [| | | |l|]; try (inversion Hc; fail).
  now rewrite (decode_all_None _ l c Hc Hnone).
Qed.

Lemma malformed_child_aborts_witness :
  parseChildPlan (JObj [("Node Type", JStr "Sort");
                        ("Actual Startup Time", JNum 5);
                        ("Actual Total Time", JNum 10);
                        ("Actual Rows", JNum 7);
                        ("Plans", JArr [scenario_child; JStr "Seq Scan"])])
    0 [] [] counting_source
  = Panic TypeAssertion.
Proof.
  apply (malformed_child_aborts _ (JStr "Seq Scan") TypeAssertion 0 0 [] [] [] []
           counting_source counting_source).
  - right. left.
  - reflexivity.
Defined.
